(** * Bill line-item extractor: a shallow embedding of [extractor.py] and [app.py]

    The development follows the two source files of the repository:

    - [Hackathon/extractor.py]: row grouping of OCR tokens, header location,
      column boundary inference, line-item extraction and the pipeline that
      assembles the result;
    - [Hackathon/app.py]: the endpoint that wraps the pipeline in a
      success / failure envelope.

    Python values are modelled as follows.
    - [int] is [Z]; [float] is an IEEE-754 binary64 value, [spec_float] with
      precision 53 and maximal exponent 1024, rounded to nearest even;
    - [str] is [string], its characters read as the code points 0..255;
    - [None]-or-value is [option]; a [dict] with string keys is a [gmap];
    - a call that may raise is a value of [outcome]: either [Returns v] or
      [Raises e]. Exceptions are instances of Python's [Exception].  *)

From Stdlib Require Import ZArith List Ascii String Bool Lia.
From Stdlib Require Import Floats.SpecFloat.
From stdpp Require Import gmap strings.
Import ListNotations.

Local Open Scope string_scope.
Local Open Scope list_scope.
Local Open Scope Z_scope.

(* ===================================================================== *)
(** ** Exceptions and outcomes *)
(* ===================================================================== *)

Record exn := mk_exn { exn_type : string; exn_str : string }.

Inductive outcome (A : Type) : Type :=
| Returns (a : A)
| Raises (e : exn).
Arguments Returns {A} a.
Arguments Raises {A} e.

Definition bind {A B : Type} (m : outcome A) (k : A -> outcome B) : outcome B :=
  match m with
  | Returns a => k a
  | Raises e => Raises e
  end.

Notation "'let!' x ':=' m 'in' k" := (bind m (fun x => k))
  (at level 10, x pattern, m at level 100, k at level 200).

(** [try: m except: h] with a bare [except] (or [except Exception]): every
    exception of the model is caught. *)
Definition try_except {A : Type} (m : outcome A) (h : exn -> outcome A) : outcome A :=
  match m with
  | Returns a => Returns a
  | Raises e => h e
  end.

Definition ValueError (msg : string) : exn := mk_exn "ValueError" msg.
Definition OverflowError (msg : string) : exn := mk_exn "OverflowError" msg.
Definition ZeroDivisionError (msg : string) : exn := mk_exn "ZeroDivisionError" msg.

(* ===================================================================== *)
(** ** Python strings *)
(* ===================================================================== *)

Module PyStr.

Definition code (c : ascii) : Z := Z.of_N (N_of_ascii c).

(** [str.isspace] on one character: the ASCII white space, the four
    separators 0x1c..0x1f, NEL (0x85) and the no-break space (0xa0). *)
Definition isspace_ch (c : ascii) : bool :=
  let n := code c in
  ((9 <=? n) && (n <=? 13)) || ((28 <=? n) && (n <=? 32))
  || (n =? 133) || (n =? 160).

(** [str.lower] on one character: A..Z, and the accented capitals
    0xc0..0xde except the multiplication sign 0xd7. *)
Definition lower_ch (c : ascii) : ascii :=
  let n := code c in
  if ((65 <=? n) && (n <=? 90))
     || ((192 <=? n) && (n <=? 222) && negb (n =? 215))
  then ascii_of_N (Z.to_N (n + 32))
  else c.

(** Characters for which [str.isdigit] holds: 0..9 and the superscripts
    two, three and one. *)
Definition isdigit_ch (c : ascii) : bool :=
  let n := code c in
  ((48 <=? n) && (n <=? 57)) || (n =? 178) || (n =? 179) || (n =? 185).

Definition chars (s : string) : list ascii := list_ascii_of_string s.
Definition of_chars (l : list ascii) : string := string_of_list_ascii l.

Fixpoint drop_while (p : ascii -> bool) (l : list ascii) : list ascii :=
  match l with
  | [] => []
  | c :: r => if p c then drop_while p r else l
  end.

(** [s.strip()] *)
Definition strip (s : string) : string :=
  of_chars (rev (drop_while isspace_ch (rev (drop_while isspace_ch (chars s))))).

(** [s.lower()] *)
Fixpoint lower (s : string) : string :=
  match s with
  | EmptyString => EmptyString
  | String c r => String (lower_ch c) (lower r)
  end.

(** [sep.join(l)] *)
Definition join (sep : string) (l : list string) : string := String.concat sep l.

(** [needle in hay] *)
Fixpoint contains (needle hay : string) : bool :=
  String.prefix needle hay
  || match hay with
     | EmptyString => false
     | String _ r => contains needle r
     end.

(** [s.replace(",", empty)], [empty] being the empty string. *)
Fixpoint remove_commas (s : string) : string :=
  match s with
  | EmptyString => EmptyString
  | String c r => if (code c =? 44) then remove_commas r else String c (remove_commas r)
  end.

(** [s.isdigit()]: non-empty and every character a digit. *)
Definition isdigit (s : string) : bool :=
  match chars s with
  | [] => false
  | l => forallb isdigit_ch l
  end.

(** [s.split()]: the maximal runs of characters that are not white space.
    [cur] is the run being read, in reverse. *)
Fixpoint split_aux (cur : list ascii) (l : list ascii) : list string :=
  match l with
  | [] => match cur with [] => [] | _ => [of_chars (rev cur)] end
  | c :: r =>
      if isspace_ch c
      then match cur with
           | [] => split_aux [] r
           | _ => of_chars (rev cur) :: split_aux [] r
           end
      else split_aux (c :: cur) r
  end.

Definition split (s : string) : list string := split_aux [] (chars s).

(** Truth value of a string: non-empty. *)
Definition truthy (s : string) : bool :=
  match s with EmptyString => false | _ => true end.

End PyStr.

(* ===================================================================== *)
(** ** Python floats *)
(* ===================================================================== *)

Module PyFloat.

Definition prec : Z := 53.
Definition emax : Z := 1024.

Definition float : Type := spec_float.

(** The float nearest to [m * 2^e]; exact whenever [|m| < 2^53] and the
    exponent is in range.  Used to write float constants. *)
Definition dyadic (m e : Z) : float := binary_normalize prec emax m e false.

(** [float(n)] for an [int] that is exactly representable. *)
Definition of_int (n : Z) : float := dyadic n 0.

Definition add (a b : float) : float := SFadd prec emax a b.
Definition sub (a b : float) : float := SFsub prec emax a b.

(** An integer as an exact, not normalised, operand of a division. *)
Definition exact_int (n : Z) : float :=
  match n with
  | Z0 => S754_zero false
  | Zpos p => S754_finite false p 0
  | Zneg p => S754_finite true p 0
  end.

(** The least magnitude that rounds to nearest beyond the largest float:
    half an ulp above [(2^53 - 1) * 2^971]. *)
Definition overflow_limit : Z := 2 ^ 1024 - 2 ^ 970.

(** [a / b] on two [int]s: the quotient correctly rounded to a float;
    [ZeroDivisionError] for a zero divisor and [OverflowError] when the
    rounded quotient is beyond the largest float, that is when
    [overflow_limit <= |a| / |b|]. *)
Definition int_truediv (a b : Z) : outcome float :=
  if b =? 0 then Raises (ZeroDivisionError "division by zero")
  else if overflow_limit * Z.abs b <=? Z.abs a
       then Raises (OverflowError "integer division result too large for a float")
       else Returns (SFdiv prec emax (exact_int a) (exact_int b)).

(** [n < f] for an [int] and a [float]: Python compares the two exactly. *)
Definition int_lt (n : Z) (f : float) : bool :=
  match f with
  | S754_nan => false
  | S754_infinity s => negb s
  | S754_zero _ => n <? 0
  | S754_finite s m e =>
      let v := cond_Zopp s (Zpos m) in
      if 0 <=? e then n <? v * 2 ^ e else n * 2 ^ (- e) <? v
  end.

(** Truth value of a float: everything but the two zeros. *)
Definition truthy (f : float) : bool :=
  match f with S754_zero _ => false | _ => true end.

(** *** [float(s)] on a string *)

Definition is_decimal (c : ascii) : bool :=
  let n := PyStr.code c in (48 <=? n) && (n <=? 57).

Definition digit_value (c : ascii) : Z := PyStr.code c - 48.

(** White space stripped around the literal: the ASCII white space, and
    the two non-ASCII spaces (which the conversion first turns into a
    blank). *)
Definition is_blank (c : ascii) : bool :=
  let n := PyStr.code c in
  ((9 <=? n) && (n <=? 13)) || (n =? 32) || (n =? 133) || (n =? 160).

Definition is_underscore (c : ascii) : bool := PyStr.code c =? 95.

(** Underscores are allowed between two digits only; they are removed.
    [prev] is the previous character. *)
Fixpoint remove_underscores (prev : option ascii) (l : list ascii) : option (list ascii) :=
  match l with
  | [] => match prev with
          | Some p => if is_underscore p then None else Some []
          | None => Some []
          end
  | c :: r =>
      if is_underscore c
      then match prev with
           | Some p => if is_decimal p then remove_underscores (Some c) r else None
           | None => None
           end
      else
        let bad := match prev with
                   | Some p => is_underscore p && negb (is_decimal c)
                   | None => false
                   end in
        if bad then None
        else option_map (cons c) (remove_underscores (Some c) r)
  end.

(** Reads a run of digits: the value accumulated on [acc], the number of
    digits read, and the rest. *)
Fixpoint scan_digits (acc : Z) (n : Z) (l : list ascii) : Z * Z * list ascii :=
  match l with
  | c :: r => if is_decimal c then scan_digits (10 * acc + digit_value c) (n + 1) r
              else (acc, n, l)
  | [] => (acc, n, [])
  end.

Definition is_char (k : Z) (c : ascii) : bool := PyStr.code c =? k.

(** An optional sign: [true] for a minus. *)
Definition scan_sign (l : list ascii) : bool * list ascii :=
  match l with
  | c :: r => if is_char 45 c then (true, r)
              else if is_char 43 c then (false, r)
              else (false, l)
  | [] => (false, [])
  end.

(** The float nearest to [(-1)^neg * m * 10^e10], for [0 <= m]. *)
Definition of_decimal (neg : bool) (m e10 : Z) : float :=
  if m =? 0 then S754_zero neg
  else if 0 <=? e10
       then binary_normalize prec emax (cond_Zopp neg (m * 10 ^ e10)) 0 neg
       else SFdiv prec emax (exact_int (cond_Zopp neg m)) (exact_int (10 ^ (- e10))).

(** The exponent part: empty, or [e] or [E], an optional sign and at
    least one digit, up to the end of the literal. *)
Definition scan_exponent (l : list ascii) : option Z :=
  match l with
  | [] => Some 0
  | c :: r =>
      if is_char 101 c || is_char 69 c
      then let '(neg, r1) := scan_sign r in
           match scan_digits 0 0 r1 with
           | (v, n, []) => if 0 <? n then Some (cond_Zopp neg v) else None
           | _ => None
           end
      else None
  end.

(** A decimal literal without its sign: digits, an optional point and
    digits (one digit at least in all), an optional exponent. *)
Definition scan_number (neg : bool) (l : list ascii) : option float :=
  let '(m1, n1, r1) := scan_digits 0 0 l in
  let '(m2, n2, r2) :=
    match r1 with
    | c :: r => if is_char 46 c then scan_digits m1 0 r else (m1, 0, r1)
    | [] => (m1, 0, r1)
    end in
  if 0 <? n1 + n2
  then match scan_exponent r2 with
       | Some e => Some (of_decimal neg m2 (e - n2))
       | None => None
       end
  else None.

Definition scan_literal (l : list ascii) : option float :=
  let '(neg, r) := scan_sign l in
  let word := PyStr.lower (PyStr.of_chars r) in
  if String.eqb word "inf" || String.eqb word "infinity" then Some (S754_infinity neg)
  else if String.eqb word "nan" then Some S754_nan
  else scan_number neg r.

(** [float(s)]: [ValueError] when [s] is not a float literal. *)
Definition of_string (s : string) : outcome float :=
  let body := rev (PyStr.drop_while is_blank
                     (rev (PyStr.drop_while is_blank (PyStr.chars s)))) in
  let parsed :=
    match body with
    | [] => None
    | _ => match remove_underscores None body with
           | Some l => scan_literal l
           | None => None
           end
    end in
  match parsed with
  | Some f => Returns f
  | None => Raises (ValueError "could not convert string to float")
  end.

End PyFloat.

Abbreviation float := PyFloat.float.

(* ===================================================================== *)
(** ** extractor.py *)
(* ===================================================================== *)

Module Extractor.

(** The dictionary returned by the OCR engine: the columns the code reads.
    ([ocr_left], [ocr_top] and [ocr_text] are its keys "left", "top" and
    "text".) *)
Record ocr_data := {
  ocr_left : list Z;
  ocr_top : list Z;
  ocr_text : list string
}.

(** A row is a list of [(x, text)] pairs. *)
Definition Row : Type := list (Z * string).

(** *** Sorting

    [sorted(l, key=k)] and [l.sort()] are stable: insertion after the
    elements whose key is not larger. *)
Fixpoint insert_by {A : Type} (key : A -> Z) (t : A) (l : list A) : list A :=
  match l with
  | [] => [t]
  | h :: r => if key t <? key h then t :: l else h :: insert_by key t r
  end.

Definition sorted_by {A : Type} (key : A -> Z) (l : list A) : list A :=
  fold_left (fun acc t => insert_by key t acc) l [].

(** [zip(left, top, text)] *)
Fixpoint zip3 (xs ys : list Z) (ts : list string) : list (Z * Z * string) :=
  match xs, ys, ts with
  | x :: xs', y :: ys', t :: ts' => (x, y, t) :: zip3 xs' ys' ts'
  | _, _, _ => []
  end.

(** *** group_tokens_by_line *)

Record group_state := {
  rows : list Row;
  current_line : Row;
  previous_y : option Z
}.

Definition same_line (threshold : Z) (previous_y : option Z) (y : Z) : bool :=
  match previous_y with
  | None => true
  | Some py => Z.abs (y - py) <=? threshold
  end.

(** One turn of the loop over [zip(left, top, text)]. *)
Definition group_step (threshold : Z) (st : group_state) (tok : Z * Z * string)
  : group_state :=
  let '(x, y, token) := tok in
  let cleaned := PyStr.strip token in
  if negb (PyStr.truthy cleaned) then st
  else if same_line threshold (previous_y st) y
       then {| rows := rows st;
               current_line := current_line st ++ [(x, cleaned)];
               previous_y := Some y |}
       else {| rows := rows st ++ [sorted_by fst (current_line st)];
               current_line := [(x, cleaned)];
               previous_y := Some y |}.

Definition group_tokens_by_line (ocr : ocr_data) (threshold : Z) : list Row :=
  let st := fold_left (group_step threshold)
              (zip3 (ocr_left ocr) (ocr_top ocr) (ocr_text ocr))
              {| rows := []; current_line := []; previous_y := None |} in
  match current_line st with
  | [] => rows st
  | _ => rows st ++ [sorted_by fst (current_line st)]
  end.

Definition default_threshold : Z := 12.

(** *** find_table_header *)

(** [" ".join(word for _, word in row).lower()] *)
Definition merged_text (row : Row) : string :=
  PyStr.lower (PyStr.join " " (map snd row)).

Definition is_header_text (merged : string) : bool :=
  (PyStr.contains "description" merged && PyStr.contains "qty" merged
   && PyStr.contains "rate" merged)
  || (PyStr.contains "qty" merged
      && (PyStr.contains "gross" merged || PyStr.contains "amount" merged)).

(** The loop over [enumerate(rows)], from index [idx] on. *)
Fixpoint find_header (idx : Z) (rs : list Row) : option (Z * Row) :=
  match rs with
  | [] => None
  | row :: rest =>
      if is_header_text (merged_text row) then Some (idx, row)
      else find_header (idx + 1) rest
  end.

(** The dictionary [positions]: its four keys are always present. *)
Record Positions := {
  desc : option Z;
  qty : option Z;
  rate : option Z;
  amt : option Z
}.

Inductive Slot := SlotDesc | SlotQty | SlotRate | SlotAmt.

(** The [if] / [elif] chain on a header word. *)
Definition slot_of (word : string) : option Slot :=
  let w := PyStr.lower word in
  if PyStr.contains "desc" w then Some SlotDesc
  else if PyStr.contains "qty" w then Some SlotQty
  else if PyStr.contains "rate" w then Some SlotRate
  else if PyStr.contains "amount" w || PyStr.contains "gross" w
          || PyStr.contains "net" w then Some SlotAmt
  else None.

Definition set_position (positions : Positions) (tok : Z * string) : Positions :=
  let '(x, word) := tok in
  match slot_of word with
  | Some SlotDesc => {| desc := Some x; qty := qty positions;
                        rate := rate positions; amt := amt positions |}
  | Some SlotQty => {| desc := desc positions; qty := Some x;
                       rate := rate positions; amt := amt positions |}
  | Some SlotRate => {| desc := desc positions; qty := qty positions;
                        rate := Some x; amt := amt positions |}
  | Some SlotAmt => {| desc := desc positions; qty := qty positions;
                       rate := rate positions; amt := Some x |}
  | None => positions
  end.

(** [[v for v in positions.values() if v is not None]] *)
Fixpoint present (l : list (option Z)) : list Z :=
  match l with
  | [] => []
  | Some v :: r => v :: present r
  | None :: r => present r
  end.

Definition positions_values (positions : Positions) : list (option Z) :=
  [desc positions; qty positions; rate positions; amt positions].

Definition len {A : Type} (l : list A) : Z := Z.of_nat (length l).

(** [boundaries[key] = (xs[i] + xs[i + 1]) / 2] when [len(xs) > i + 1]. *)
Definition add_boundary (xs : list Z) (i : nat) (key : string)
  (boundaries : gmap string float) : outcome (gmap string float) :=
  if Z.of_nat i + 1 <? len xs
  then let! v := PyFloat.int_truediv (nth i xs 0 + nth (S i) xs 0) 2 in
       Returns (<[key := v]> boundaries)
  else Returns boundaries.

Definition header_boundaries (header_row : Row) : outcome (gmap string float) :=
  let positions :=
    fold_left set_position header_row
      {| desc := None; qty := None; rate := None; amt := None |} in
  let xs := sorted_by id (present (positions_values positions)) in
  let! b1 := add_boundary xs 0 "desc_end" ∅ in
  let! b2 := add_boundary xs 1 "qty_end" b1 in
  add_boundary xs 2 "rate_end" b2.

Definition find_table_header (rs : list Row)
  : outcome (option Z * option (gmap string float)) :=
  match find_header 0 rs with
  | None => Returns (None, None)
  | Some (header_index, header_row) =>
      let! boundaries := header_boundaries header_row in
      Returns (Some header_index, Some boundaries)
  end.

(** *** Utility conversions *)

Definition as_number (value : string) : outcome (option float) :=
  try_except
    (let! f := PyFloat.of_string (PyStr.remove_commas value) in Returns (Some f))
    (fun _ => Returns None).

Definition strip_serial (description : string) : string :=
  match PyStr.split description with
  | first :: rest =>
      if PyStr.isdigit first then PyStr.join " " rest else description
  | [] => description
  end.

(** *** extract_line_items *)

Record LineItem := {
  item_name : string;
  item_quantity : float;
  item_rate : float;
  item_amount : float
}.

Record Columns := {
  desc_col : list string;
  qty_col : list string;
  rate_col : list string;
  amt_col : list string
}.

(** [x < boundaries.get(key, 99999)] *)
Definition before (boundaries : gmap string float) (key : string) (x : Z) : bool :=
  match boundaries !! key with
  | Some v => PyFloat.int_lt x v
  | None => x <? 99999
  end.

(** One turn of the loop over the tokens of a row. *)
Definition place (boundaries : gmap string float) (cols : Columns)
  (tok : Z * string) : Columns :=
  let '(x, token) := tok in
  if before boundaries "desc_end" x
  then {| desc_col := desc_col cols ++ [token]; qty_col := qty_col cols;
          rate_col := rate_col cols; amt_col := amt_col cols |}
  else if before boundaries "qty_end" x
  then {| desc_col := desc_col cols; qty_col := qty_col cols ++ [token];
          rate_col := rate_col cols; amt_col := amt_col cols |}
  else if before boundaries "rate_end" x
  then {| desc_col := desc_col cols; qty_col := qty_col cols;
          rate_col := rate_col cols ++ [token]; amt_col := amt_col cols |}
  else {| desc_col := desc_col cols; qty_col := qty_col cols;
          rate_col := rate_col cols; amt_col := amt_col cols ++ [token] |}.

Definition bucket_row (boundaries : gmap string float) (row : Row) : Columns :=
  fold_left (place boundaries) row
    {| desc_col := []; qty_col := []; rate_col := []; amt_col := [] |}.

(** The first token of the amount bucket that is a number. *)
Fixpoint first_number (toks : list string) : outcome (option float) :=
  match toks with
  | [] => Returns None
  | tok :: rest =>
      let! num := as_number tok in
      match num with
      | Some v => Returns (Some v)
      | None => first_number rest
      end
  end.

Definition one : float := PyFloat.dyadic 1 0.

(** [v if v else default] *)
Definition or_default (v : option float) (default : float) : float :=
  match v with
  | Some f => if PyFloat.truthy f then f else default
  | None => default
  end.

(** The body of the loop on one row that is neither skipped nor the stop
    marker: the item to append, if any. *)
Definition row_item (boundaries : gmap string float) (row : Row)
  : outcome (option LineItem) :=
  let cols := bucket_row boundaries row in
  let description := strip_serial (PyStr.strip (PyStr.join " " (desc_col cols))) in
  let! quantity := as_number (PyStr.join EmptyString (qty_col cols)) in
  let! rate_val := as_number (PyStr.join EmptyString (rate_col cols)) in
  let! amount_val := first_number (amt_col cols) in
  match amount_val with
  | None => Returns None
  | Some amount =>
      if negb (PyStr.truthy description) then Returns None
      else Returns (Some {| item_name := description;
                            item_quantity := or_default quantity one;
                            item_rate := or_default rate_val amount;
                            item_amount := amount |})
  end.

(** The loop over the rows after the header, [items] being the list built
    so far: [continue] on "category total", [break] on "printed". *)
Fixpoint scan_rows (boundaries : gmap string float) (rs : list Row)
  (items : list LineItem) : outcome (list LineItem) :=
  match rs with
  | [] => Returns items
  | row :: rest =>
      let row_text_full := merged_text row in
      if PyStr.contains "category total" row_text_full
      then scan_rows boundaries rest items
      else if PyStr.contains "printed" row_text_full
      then Returns items
      else
        let! item := row_item boundaries row in
        match item with
        | None => scan_rows boundaries rest items
        | Some it => scan_rows boundaries rest (items ++ [it])
        end
  end.

(** [l[i:]] *)
Definition slice_from {A : Type} (l : list A) (i : Z) : list A :=
  let start := if i <? 0 then Z.max 0 (len l + i) else i in
  skipn (Z.to_nat start) l.

Definition extract_line_items (rs : list Row) (header_row_idx : option Z)
  (boundaries : option (gmap string float)) : outcome (list LineItem) :=
  match header_row_idx, boundaries with
  | Some idx, Some b => scan_rows b (slice_from rs (idx + 1)) []
  | _, _ => Returns []
  end.

(** *** extract_bill_info_from_url *)

Record Page := {
  page_no : string;
  bill_items : list LineItem
}.

(** A Python number: [sum] of an empty sequence is the [int] 0. *)
Inductive number :=
| PInt (n : Z)
| PFloat (f : float).

Definition number_add (a : number) (b : float) : number :=
  match a with
  | PInt n => PFloat (PyFloat.add (PyFloat.of_int n) b)
  | PFloat f => PFloat (PyFloat.add f b)
  end.

(** [sum(l)]: the items added from left to right, starting from 0, as
    CPython up to 3.11 computes it.  From 3.12 on CPython adds a
    compensation term to float sums ([py_sum_compensated] below); the two
    agree on an empty and a one-item sequence, on a not-a-number item, and
    whenever every addition is exact. *)
Definition py_sum (l : list float) : number := fold_left number_add l (PInt 0).

(** [sum(l)] as CPython 3.12 and later compute it on floats: the first
    item is added to the integer 0, then each further item [x] is added to
    the running sum [f] while the rounding error of that addition goes to
    the compensation [c], which is added once at the end if it is nonzero
    and finite. *)
Definition abs_ge (f x : float) : bool :=
  match SFcompare (SFabs f) (SFabs x) with
  | Some Gt | Some Eq => true
  | _ => false
  end.

Definition is_finite (f : float) : bool :=
  match f with
  | S754_zero _ | S754_finite _ _ _ => true
  | _ => false
  end.

Fixpoint compensated_loop (l : list float) (f c : float) : float :=
  match l with
  | [] => if PyFloat.truthy c && is_finite c then PyFloat.add f c else f
  | x :: rest =>
      let t := PyFloat.add f x in
      let c' := if abs_ge f x
                then PyFloat.add c (PyFloat.add (PyFloat.sub f t) x)
                else PyFloat.add c (PyFloat.add (PyFloat.sub x t) f) in
      compensated_loop rest t c'
  end.

Definition py_sum_compensated (l : list float) : number :=
  match l with
  | [] => PInt 0
  | x :: rest =>
      PFloat (compensated_loop rest (PyFloat.add (PyFloat.of_int 0) x)
                (S754_zero false))
  end.

Record ExtractionResult := {
  pagewise_line_items : list Page;
  total_item_count : Z;
  reconciled_amount : number
}.

(** The dictionary that [extract_bill_info_from_url] returns. *)
Record Envelope := {
  is_success : bool;
  data : ExtractionResult
}.

(** The two collaborators: the image download and the OCR engine. *)
Record Collaborators := {
  Image : Type;
  load_image_from_url : string -> outcome Image;
  text_with_boxes : Image -> outcome ocr_data
}.

(** The pipeline from the rows on. *)
Definition bill_info_from_rows (rs : list Row) : outcome Envelope :=
  let! (header_idx, bounds) := find_table_header rs in
  let! line_items := extract_line_items rs header_idx bounds in
  Returns {| is_success := true;
             data := {| pagewise_line_items :=
                          [ {| page_no := "1"; bill_items := line_items |} ];
                        total_item_count := len line_items;
                        reconciled_amount := py_sum (map item_amount line_items) |} |}.

(** The pipeline from the OCR output on. *)
Definition bill_info_from_ocr (ocr : ocr_data) : outcome Envelope :=
  bill_info_from_rows (group_tokens_by_line ocr default_threshold).

Definition extract_bill_info_from_url (C : Collaborators) (image_url : string)
  : outcome Envelope :=
  let! img := load_image_from_url C image_url in
  let! ocr := text_with_boxes C img in
  bill_info_from_ocr ocr.

End Extractor.

(* ===================================================================== *)
(** ** app.py *)
(* ===================================================================== *)

Module App.

Record BillRequest := { document : string }.

Record Response := {
  is_success : bool;
  data : option Extractor.Envelope;
  error : option string
}.

Definition extract_bill_data (C : Extractor.Collaborators) (payload : BillRequest)
  : outcome Response :=
  try_except
    (let! result := Extractor.extract_bill_info_from_url C (document payload) in
     Returns {| is_success := true; data := Some result; error := None |})
    (fun err =>
       Returns {| is_success := false; data := None;
                  error := Some (String.append "Processing failed: " (exn_str err)) |}).

End App.

(* ===================================================================== *)
(** ** Concrete inputs used below *)
(* ===================================================================== *)

Module Samples.
Import Extractor.

(** A header at y=0 and one item row at y=20. *)
Definition widget_ocr : ocr_data :=
  {| ocr_left := [10; 200; 300; 400; 10; 40; 210; 310; 410];
     ocr_top := [0; 0; 0; 0; 20; 20; 20; 20; 20];
     ocr_text := ["Description"; "Qty"; "Rate"; "Amount";
                  "1"; "Widget"; "2"; "5.00"; "10.00"] |}.

Definition widget_boundaries : gmap string float :=
  <["rate_end" := PyFloat.dyadic 350 0]>
    (<["qty_end" := PyFloat.dyadic 250 0]>
       (<["desc_end" := PyFloat.dyadic 105 0]> ∅)).

Definition widget_item : LineItem :=
  {| item_name := "Widget";
     item_quantity := PyFloat.dyadic 2 0;
     item_rate := PyFloat.dyadic 5 0;
     item_amount := PyFloat.dyadic 10 0 |}.

Definition widget_result : Envelope :=
  {| is_success := true;
     data := {| pagewise_line_items :=
                  [ {| page_no := "1"; bill_items := [widget_item] |} ];
                total_item_count := 1;
                reconciled_amount := PFloat (PyFloat.dyadic 10 0) |} |}.

(** Collaborators that always succeed and read [ocr] off every image. *)
Definition fixed_ocr (ocr : ocr_data) : Collaborators :=
  {| Image := unit;
     load_image_from_url := fun _ => Returns tt;
     text_with_boxes := fun _ => Returns ocr |}.

(** Collaborators whose download fails. *)
Definition failing_download (e : exn) : Collaborators :=
  {| Image := unit;
     load_image_from_url := fun _ => Raises e;
     text_with_boxes := fun _ => Returns widget_ocr |}.

Definition header_row : Row :=
  [(10, "Description"); (200, "Qty"); (300, "Rate"); (400, "Amount")].




(** An item row whose amount bucket holds three tokens, the first of which
    is no number. *)
Definition three_amounts_row : Row :=
  [(40, "Widget"); (210, "0"); (310, "5.00"); (410, "n/a"); (450, "7"); (480, "9")].

End Samples.

(* ===================================================================== *)
(** ** Rows with their y-coordinates *)
(* ===================================================================== *)

(** [group_tokens_by_line] drops the y of a token once the token is placed.
    [group_segments] is the same loop with the y kept: it returns, for each
    row, the tokens of the row in the order they were read. *)
Module Segments.
Import Extractor.

Definition Token : Type := (Z * Z * string)%type.

Definition token_y (t : Token) : Z := snd (fst t).
Definition drop_y (t : Token) : Z * string := (fst (fst t), snd t).

Record segment_state := {
  segments : list (list Token);
  current_segment : list Token;
  last_y : option Z
}.

Definition segment_step (threshold : Z) (st : segment_state) (tok : Token)
  : segment_state :=
  let '(x, y, token) := tok in
  let cleaned := PyStr.strip token in
  if negb (PyStr.truthy cleaned) then st
  else if same_line threshold (last_y st) y
       then {| segments := segments st;
               current_segment := current_segment st ++ [(x, y, cleaned)];
               last_y := Some y |}
       else {| segments := segments st ++ [current_segment st];
               current_segment := [(x, y, cleaned)];
               last_y := Some y |}.

Definition group_segments (ocr : ocr_data) (threshold : Z) : list (list Token) :=
  let st := fold_left (segment_step threshold)
              (zip3 (ocr_left ocr) (ocr_top ocr) (ocr_text ocr))
              {| segments := []; current_segment := []; last_y := None |} in
  match current_segment st with
  | [] => segments st
  | _ => segments st ++ [current_segment st]
  end.

Definition row_of_segment (seg : list Token) : Row :=
  sorted_by fst (map drop_y seg).

(** Every token is within [threshold] of the token read just before it. *)
Fixpoint chain_close (threshold : Z) (seg : list Token) : Prop :=
  match seg with
  | t1 :: (t2 :: _) as rest =>
      Z.abs (token_y t2 - token_y t1) <= threshold /\ chain_close threshold rest
  | _ => True
  end.

(** The state of [group_tokens_by_line] is the state of [group_segments]
    with the y of the placed tokens forgotten. *)
Definition forgets (st : segment_state) (gst : group_state) : Prop :=
  rows gst = map row_of_segment (segments st)
  /\ current_line gst = map drop_y (current_segment st)
  /\ previous_y gst = last_y st.

(** What the loop maintains: finished segments and the current one are
    chains, and [last_y] is the y of the last token of the current one. *)
Definition chained (threshold : Z) (st : segment_state) : Prop :=
  Forall (chain_close threshold) (segments st)
  /\ chain_close threshold (current_segment st)
  /\ match last_y st with
     | None => current_segment st = []
     | Some py => exists seg t, current_segment st = seg ++ [t] /\ token_y t = py
     end.

(** Three tokens at y = 0, 10 and 20. *)
Definition staircase : ocr_data :=
  {| ocr_left := [0; 50; 100];
     ocr_top := [0; 10; 20];
     ocr_text := ["a"; "b"; "c"] |}.

End Segments.

(* ===================================================================== *)
(** ** Vocabulary of the statements *)
(* ===================================================================== *)

Module Terms.
Import Extractor.

(** The value [as_number] returns, read off the outcome of [float]. *)
Definition coerced (value : string) : option float :=
  match PyFloat.of_string (PyStr.remove_commas value) with
  | Returns f => Some f
  | Raises _ => None
  end.

(** A float that is one of the two zeros. *)
Definition is_zero (f : float) : Prop := exists s, f = S754_zero s.

(** The tokens of a header row that the [if] / [elif] chain puts in a slot. *)
Definition classified (row : Row) : list (Z * string) :=
  List.filter (fun tok => match slot_of (snd tok) with Some _ => true | None => false end) row.

(** The number of slots of [positions] that hold a position. *)
Definition filled (positions : Positions) : nat :=
  length (present (positions_values positions)).

(** A coordinate a 64-bit pixel position can hold. *)
Definition small (x : Z) : Prop := Z.abs x < 2 ^ 63.

(** Every position held by [positions] is small. *)
Definition small_positions (positions : Positions) : Prop :=
  Forall small (present (positions_values positions)).

(** A header that is one word, and an item row with its amount far right. *)
Definition far_rows : list Row :=
  [[(10, "Qty/Amount")]; [(5, "Widget"); (99999, "10.00")]].

Definition far_item : LineItem :=
  {| item_name := "Widget";
     item_quantity := PyFloat.dyadic 1 0;
     item_rate := PyFloat.dyadic 10 0;
     item_amount := PyFloat.dyadic 10 0 |}.

(** An item row whose quantity reads 0. *)
Definition zero_quantity_row : Row :=
  [(40, "Widget"); (210, "0"); (310, "5.00"); (410, "10.00")].








End Terms.

(* ===================================================================== *)
(** ** Vocabulary of the further properties *)
(* ===================================================================== *)

Module Further.
Import Extractor Segments.

(** The list has no two neighbours out of order. *)
Fixpoint ascending {A : Type} (key : A -> Z) (l : list A) : Prop :=
  match l with
  | a :: (b :: _) as rest => key a <= key b /\ ascending key rest
  | _ => True
  end.

(** The tokens the grouping loop keeps, in reading order: those whose
    stripped text is not empty, with the text stripped. *)
Fixpoint kept (toks : list Token) : list Token :=
  match toks with
  | [] => []
  | (x, y, token) :: rest =>
      if PyStr.truthy (PyStr.strip token)
      then (x, y, PyStr.strip token) :: kept rest
      else kept rest
  end.

(** The OCR columns of a list of tokens. *)
Definition ocr_of_tokens (toks : list Token) : ocr_data :=
  {| ocr_left := map (fun t => fst (fst t)) toks;
     ocr_top := map token_y toks;
     ocr_text := map snd toks |}.

(** The last token of [s1] and the first of [s2] are more than [threshold]
    apart. *)
Definition far (threshold : Z) (s1 s2 : list Token) : Prop :=
  match rev s1, s2 with
  | a :: _, b :: _ => threshold < Z.abs (token_y b - token_y a)
  | _, _ => False
  end.

Fixpoint gaps (threshold : Z) (segs : list (list Token)) : Prop :=
  match segs with
  | s1 :: (s2 :: _) as rest => far threshold s1 s2 /\ gaps threshold rest
  | _ => True
  end.

(** What the loop has built after reading the tokens [done]: the finished
    segments followed by the current one are the kept tokens, cut where the
    y jumps. *)
Definition read_so_far (threshold : Z) (done : list Token) (st : segment_state)
  : Prop :=
  concat (segments st) ++ current_segment st = kept done
  /\ Forall (fun seg => seg <> []) (segments st)
  /\ match last_y st with
     | None => segments st = [] /\ current_segment st = []
     | Some py => exists seg t, current_segment st = seg ++ [t] /\ token_y t = py
     end
  /\ gaps threshold (segments st ++ [current_segment st]).

(** The tokens whose stripped text is not empty. *)
Definition not_blank (t : Token) : bool := PyStr.truthy (PyStr.strip (snd t)).

(** The positions found in a header row. *)
Definition header_positions (header_row : Row) : Positions :=
  fold_left set_position header_row
    {| desc := None; qty := None; rate := None; amt := None |}.

(** The sorted positions [xs] of a header row. *)
Definition header_xs (header_row : Row) : list Z :=
  sorted_by id (present (positions_values (header_positions header_row))).

(** A row with every word rewritten by [g]. *)
Definition map_words (g : string -> string) (row : Row) : Row :=
  map (fun tok => (fst tok, g (snd tok))) row.

(** A word: a non-empty string without white space. *)
Definition is_word (w : string) : Prop :=
  PyStr.chars w <> []
  /\ forallb (fun c => negb (PyStr.isspace_ch c)) (PyStr.chars w) = true.

(** A row at which the scan of [extract_line_items] stops. *)
Definition is_stop (row : Row) : bool :=
  negb (PyStr.contains "category total" (merged_text row))
  && PyStr.contains "printed" (merged_text row).

(** The result with no item. *)
Definition empty_result : Envelope :=
  {| is_success := true;
     data := {| pagewise_line_items := [ {| page_no := "1"; bill_items := [] |} ];
                total_item_count := 0;
                reconciled_amount := PInt 0 |} |}.

End Further.

(* ********************************************************************* *)
(** * Properties *)
(* ********************************************************************* *)

(* ===================================================================== *)
(** ** Numeric coercion *)
(* ===================================================================== *)

Section Coercion.
Import Extractor Terms.

(** The float constants of the statements are exact: mantissa times a
    power of two. *)
Lemma dyadic_values :
  PyFloat.dyadic 1 0 = S754_finite false (2 ^ 52) (-52)
  /\ PyFloat.dyadic 2 0 = S754_finite false (2 ^ 52) (-51)
  /\ PyFloat.dyadic 5 0 = S754_finite false (5 * 2 ^ 50) (-50)
  /\ PyFloat.dyadic 10 0 = S754_finite false (5 * 2 ^ 50) (-49)
  /\ PyFloat.dyadic 105 0 = S754_finite false (105 * 2 ^ 46) (-46)
  /\ PyFloat.dyadic 250 0 = S754_finite false (125 * 2 ^ 46) (-45)
  /\ PyFloat.dyadic 350 0 = S754_finite false (175 * 2 ^ 45) (-44)
  /\ PyFloat.dyadic 2469 (-1) = S754_finite false (2469 * 2 ^ 41) (-42).
Proof. repeat split; vm_compute; reflexivity. Qed.

(** [float] on a few literals: 0.1 is 0x1.999999999999ap-4; underscores
    between digits and blanks around the literal are accepted; a literal
    beyond the floats is infinity, one below them is zero. *)
Lemma of_string_values :
  PyFloat.of_string "0.1" = Returns (S754_finite false 7205759403792794 (-56))
  /\ PyFloat.of_string " 1_000.5e-2 " = PyFloat.of_string "10.005"
  /\ PyFloat.of_string "1e400" = Returns (S754_infinity false)
  /\ PyFloat.of_string "-1e-400" = Returns (S754_zero true)
  /\ PyFloat.of_string "NaN" = Returns S754_nan
  /\ PyFloat.of_string "9007199254740993" = Returns (PyFloat.dyadic 9007199254740992 0)
  /\ (exists e, PyFloat.of_string "1.2.3" = Raises e)
  /\ (exists e, PyFloat.of_string "1__0" = Raises e)
  /\ (exists e, PyFloat.of_string "1e" = Raises e)
  /\ (exists e, PyFloat.of_string "." = Raises e).
Proof.
  repeat split; try (vm_compute; reflexivity); eexists; vm_compute; reflexivity.
Qed.

Lemma as_number_returns (value : string) :
  as_number value = Returns (coerced value).
Proof.
  unfold as_number, coerced.
  destruct (PyFloat.of_string (PyStr.remove_commas value)); reflexivity.
Qed.

(** C8. Numeric coercion never raises: on every string it returns, the
    parsed float of the string without its commas when [float] succeeds
    and [None] when [float] raises.  "1,234.50" gives 1234.5, "abc" and
    the empty string give [None]. *)
Theorem as_number_total :
  (forall value : string,
      (exists f, PyFloat.of_string (PyStr.remove_commas value) = Returns f
                 /\ as_number value = Returns (Some f))
      \/ (exists e, PyFloat.of_string (PyStr.remove_commas value) = Raises e
                    /\ as_number value = Returns None))
  /\ as_number "1,234.50" = Returns (Some (PyFloat.dyadic 2469 (-1)))
  /\ as_number "abc" = Returns None
  /\ as_number EmptyString = Returns None.
Proof.
  split; [| repeat split; vm_compute; reflexivity].
  intros value. unfold as_number.
  destruct (PyFloat.of_string (PyStr.remove_commas value)) as [f | e].
  - left. exists f. split; reflexivity.
  - right. exists e. split; reflexivity.
Qed.

Lemma first_number_returns (toks : list string) :
  exists r, first_number toks = Returns r.
Proof.
  induction toks as [| tok rest IH]; simpl.
  - eexists; reflexivity.
  - rewrite as_number_returns. simpl.
    destruct (coerced tok); [eexists; reflexivity | exact IH].
Qed.

Lemma row_item_returns (b : gmap string float) (row : Row) :
  exists r, row_item b row = Returns r.
Proof.
  unfold row_item. rewrite !as_number_returns. simpl.
  destruct (first_number_returns (amt_col (bucket_row b row))) as [[a |] ->]; simpl.
  - destruct (negb _); eexists; reflexivity.
  - eexists; reflexivity.
Qed.

Lemma scan_rows_returns (b : gmap string float) (rs : list Row) :
  forall items, exists out, scan_rows b rs items = Returns out.
Proof.
  induction rs as [| row rest IH]; intros items; simpl.
  - eexists; reflexivity.
  - destruct (PyStr.contains "category total" (merged_text row)); [apply IH |].
    destruct (PyStr.contains "printed" (merged_text row)); [eexists; reflexivity |].
    destruct (row_item_returns b row) as [[it |] ->]; simpl; apply IH.
Qed.

(** The extractor itself never raises. *)
Lemma extract_line_items_returns rs idx b :
  exists out, extract_line_items rs idx b = Returns out.
Proof.
  unfold extract_line_items.
  destruct idx; [destruct b |]; try (eexists; reflexivity).
  apply scan_rows_returns.
Qed.

End Coercion.

(* ===================================================================== *)
(** ** The end-to-end scenario *)
(* ===================================================================== *)

Section Scenario.
Import Extractor Samples.

(** C2. On the header tokens at y=0 and the row tokens at y=20, grouped
    with the default threshold 12, the header is row 0, the boundaries
    are desc_end=105.0, qty_end=250.0 and rate_end=350.0, and the
    pipeline returns the single item Widget, 2.0, 5.0, 10.0, with count 1
    and reconciled amount 10.0. *)
Theorem widget_end_to_end :
  default_threshold = 12
  /\ find_table_header (group_tokens_by_line widget_ocr default_threshold)
     = Returns (Some 0, Some widget_boundaries)
  /\ widget_boundaries !! "desc_end" = Some (PyFloat.dyadic 105 0)
  /\ widget_boundaries !! "qty_end" = Some (PyFloat.dyadic 250 0)
  /\ widget_boundaries !! "rate_end" = Some (PyFloat.dyadic 350 0)
  /\ bill_info_from_ocr widget_ocr = Returns widget_result
  /\ extract_bill_info_from_url (fixed_ocr widget_ocr) "http://bill"
     = Returns widget_result.
Proof.
  repeat split; vm_compute; reflexivity.
Qed.

End Scenario.

(* ===================================================================== *)
(** ** Exact float additions *)
(* ===================================================================== *)

Section ExactAdditions.
Import Extractor Terms.

Lemma digits2_size (p : positive) : digits2_pos p = Pos.size p.
Proof. induction p; simpl; congruence. Qed.

Lemma Zdigits2_log2 (p : positive) : Zdigits2 (Zpos p) = Z.log2 (Zpos p) + 1.
Proof.
  unfold Zdigits2. rewrite digits2_size.
  destruct p; simpl; rewrite ?Pos.add_1_r; try reflexivity; lia.
Qed.






















(** The two sums also agree on 0.10 + 0.20 (both give
    0.30000000000000004), and differ on 0.10 + 0.20 + 0.30. *)
Lemma py_sum_compensated_samples :
  py_sum_compensated [S754_finite false 7205759403792794 (-56);
                      S754_finite false 7205759403792794 (-55)]
  = py_sum [S754_finite false 7205759403792794 (-56);
            S754_finite false 7205759403792794 (-55)]
  /\ py_sum_compensated [S754_finite false 7205759403792794 (-56);
                         S754_finite false 7205759403792794 (-55);
                         S754_finite false 5404319552844595 (-54)]
     = PFloat (S754_finite false 5404319552844595 (-53))
  /\ py_sum [S754_finite false 7205759403792794 (-56);
             S754_finite false 7205759403792794 (-55);
             S754_finite false 5404319552844595 (-54)]
     = PFloat (S754_finite false 5404319552844596 (-53)).
Proof. repeat split; vm_compute; reflexivity. Qed.

End ExactAdditions.

(* ===================================================================== *)
(** ** The assembled result *)
(* ===================================================================== *)

Section Assembly.
Import Extractor Samples Terms.

Lemma bill_info_from_rows_fields (rs : list Row) (env : Envelope) :
  bill_info_from_rows rs = Returns env ->
  exists items,
    is_success env = true
    /\ pagewise_line_items (data env) = [ {| page_no := "1"; bill_items := items |} ]
    /\ total_item_count (data env) = len items
    /\ reconciled_amount (data env) = py_sum (map item_amount items).
Proof.
  unfold bill_info_from_rows. intros H.
  destruct (find_table_header rs) as [[hi b] | e]; simpl in H; [| discriminate].
  destruct (extract_line_items rs hi b) as [items | e]; simpl in H; [| discriminate].
  injection H as <-. exists items. simpl. repeat split.
Qed.




Lemma find_header_none (rs : list Row) :
  Forall (fun row => is_header_text (merged_text row) = false) rs ->
  forall idx, find_header idx rs = None.
Proof.
  induction 1 as [| row rest Hrow _ IH]; intros idx; simpl.
  - reflexivity.
  - rewrite Hrow. apply IH.
Qed.

(** C6. When no row satisfies the header predicate, the pipeline from the
    rows on returns (it does not raise) the result with no item, count 0
    and reconciled amount 0. *)
Theorem no_header_gives_empty_result (rs : list Row) :
  Forall (fun row => is_header_text (merged_text row) = false) rs ->
  bill_info_from_rows rs
  = Returns {| is_success := true;
               data := {| pagewise_line_items :=
                            [ {| page_no := "1"; bill_items := [] |} ];
                          total_item_count := 0;
                          reconciled_amount := PInt 0 |} |}.
Proof.
  intros H. unfold bill_info_from_rows, find_table_header.
  rewrite (find_header_none rs H 0). reflexivity.
Qed.

Lemma no_header_gives_empty_result_witness :
  bill_info_from_rows [[(10, "Invoice"); (90, "No."); (150, "42")];
                       [(10, "Widget"); (410, "10.00")]]
  = Returns {| is_success := true;
               data := {| pagewise_line_items :=
                            [ {| page_no := "1"; bill_items := [] |} ];
                          total_item_count := 0;
                          reconciled_amount := PInt 0 |} |}.
Proof.
  apply no_header_gives_empty_result.
  repeat constructor.
Defined.

End Assembly.

(* ===================================================================== *)
(** ** Row grouping *)
(* ===================================================================== *)

Section Grouping.
Import Extractor Segments.

Lemma group_step_forgets threshold st gst tok :
  forgets st gst ->
  forgets (segment_step threshold st tok) (group_step threshold gst tok).
Proof.
  intros (Hr & Hc & Hy). destruct tok as [[x y] token].
  unfold segment_step, group_step.
  destruct (negb (PyStr.truthy (PyStr.strip token))); [repeat split; assumption |].
  rewrite Hy. destruct (same_line threshold (last_y st) y); repeat split; simpl.
  - assumption.
  - rewrite Hc, map_app. reflexivity.
  - rewrite Hr, Hc, map_app. reflexivity.
Qed.

Lemma fold_forgets threshold toks :
  forall st gst, forgets st gst ->
    forgets (fold_left (segment_step threshold) toks st)
            (fold_left (group_step threshold) toks gst).
Proof.
  induction toks as [| tok rest IH]; intros st gst H; simpl.
  - exact H.
  - apply IH, group_step_forgets, H.
Qed.

Lemma group_tokens_by_line_segments (ocr : ocr_data) (threshold : Z) :
  group_tokens_by_line ocr threshold
  = map row_of_segment (group_segments ocr threshold).
Proof.
  unfold group_tokens_by_line, group_segments.
  set (toks := zip3 _ _ _).
  destruct (fold_forgets threshold toks
              {| segments := []; current_segment := []; last_y := None |}
              {| rows := []; current_line := []; previous_y := None |})
    as (Hr & Hc & _); [repeat split |].
  rewrite Hr, Hc.
  destruct (current_segment _) as [| t seg]; simpl.
  - reflexivity.
  - rewrite map_app. reflexivity.
Qed.

Lemma chain_close_snoc threshold (seg : list Token) (t u : Token) :
  chain_close threshold (seg ++ [t]) ->
  Z.abs (token_y u - token_y t) <= threshold ->
  chain_close threshold ((seg ++ [t]) ++ [u]).
Proof.
  induction seg as [| a seg IH]; intros Hc Hu.
  - simpl. auto.
  - destruct seg as [| b seg].
    + simpl in *. tauto.
    + change (chain_close threshold (a :: b :: ((seg ++ [t]) ++ [u]))).
      change (chain_close threshold (a :: b :: (seg ++ [t]))) in Hc.
      destruct Hc as [Hab Hrest]. split; [exact Hab |].
      apply (IH Hrest Hu).
Qed.

Lemma segment_step_chained threshold st tok :
  chained threshold st -> chained threshold (segment_step threshold st tok).
Proof.
  intros (Hs & Hc & Hy). destruct tok as [[x y] token].
  unfold segment_step.
  destruct (negb (PyStr.truthy (PyStr.strip token))); [repeat split; assumption |].
  destruct (same_line threshold (last_y st) y) eqn:Hsame; repeat split; simpl.
  - assumption.
  - destruct (last_y st) as [py |].
    + destruct Hy as (seg & t & Heq & Hpy). rewrite Heq in Hc |- *.
      apply chain_close_snoc; [exact Hc |].
      unfold same_line in Hsame. apply Z.leb_le in Hsame.
      unfold token_y at 1. simpl. rewrite Hpy. exact Hsame.
    + rewrite Hy. simpl. exact I.
  - exists (current_segment st), (x, y, PyStr.strip token). split; reflexivity.
  - apply Forall_app. split; [assumption | constructor; [assumption | constructor]].
  - exists [], (x, y, PyStr.strip token). split; reflexivity.
Qed.

Lemma fold_chained threshold toks :
  forall st, chained threshold st ->
    chained threshold (fold_left (segment_step threshold) toks st).
Proof.
  induction toks as [| tok rest IH]; intros st H; simpl.
  - exact H.
  - apply IH, segment_step_chained, H.
Qed.

(** C3, as the code has it. Every row is the sorted image of a run of
    tokens in which each token is within the threshold of the token read
    just before it. *)
Theorem rows_are_chains (ocr : ocr_data) (threshold : Z) :
  group_tokens_by_line ocr threshold
  = map row_of_segment (group_segments ocr threshold)
  /\ Forall (chain_close threshold) (group_segments ocr threshold).
Proof.
  split; [apply group_tokens_by_line_segments |].
  unfold group_segments. set (toks := zip3 _ _ _).
  destruct (fold_chained threshold toks
              {| segments := []; current_segment := []; last_y := None |})
    as (Hs & Hc & _).
  { repeat split; simpl; constructor. }
  destruct (current_segment _) as [| t seg] eqn:Hcur.
  - exact Hs.
  - apply Forall_app. split; [exact Hs | constructor; [exact Hc | constructor]].
Qed.

(** C3, as stated, fails: with threshold 12 the tokens at y = 0, 10 and 20
    form one row, and the first and the last are 20 apart. *)
Lemma staircase_row_spans_twenty :
  group_tokens_by_line staircase 12 = [[(0, "a"); (50, "b"); (100, "c")]]
  /\ ~ (forall (ocr : ocr_data) (threshold : Z) (seg : list Token) (t u : Token),
           In seg (group_segments ocr threshold) ->
           In t seg -> In u seg ->
           Z.abs (token_y t - token_y u) <= threshold).
Proof.
  split; [vm_compute; reflexivity |].
  intros H.
  specialize (H staircase 12 [(0, 0, "a"); (50, 10, "b"); (100, 20, "c")]
                (0, 0, "a") (100, 20, "c")).
  assert (Hle : Z.abs (token_y (0, 0, "a") - token_y (100, 20, "c")) <= 12).
  { apply H.
    - vm_compute. left. reflexivity.
    - left. reflexivity.
    - right. right. left. reflexivity. }
  vm_compute in Hle. apply Hle. reflexivity.
Qed.

End Grouping.

(* ===================================================================== *)
(** ** The stop marker *)
(* ===================================================================== *)

Section StopMarker.
Import Extractor Samples Terms.

Lemma scan_rows_stops (b : gmap string float) (row : Row) (below : list Row) :
  PyStr.contains "category total" (merged_text row) = false ->
  PyStr.contains "printed" (merged_text row) = true ->
  forall (above : list Row) (items : list LineItem),
    scan_rows b (above ++ row :: below) items = scan_rows b above items.
Proof.
  intros Hcat Hprinted.
  induction above as [| r above IH]; intros items; simpl.
  - rewrite Hcat, Hprinted. reflexivity.
  - destruct (PyStr.contains "category total" (merged_text r)); [apply IH |].
    destruct (PyStr.contains "printed" (merged_text r)); [reflexivity |].
    destruct (row_item b r) as [[it |] | e]; simpl; auto.
Qed.

Lemma slice_from_app {A : Type} (l1 l2 : list A) (i : Z) :
  0 <= i <= len l1 ->
  slice_from (l1 ++ l2) i = slice_from l1 i ++ l2.
Proof.
  intros Hi. unfold slice_from, len in *.
  destruct (i <? 0) eqn:Hneg; [apply Z.ltb_lt in Hneg; lia |].
  rewrite skipn_app.
  replace (Z.to_nat i - length l1)%nat with 0%nat by lia.
  reflexivity.
Qed.

(** C7, as the code has it. A row after the header whose text contains
    "printed" and not "category total" ends the scan: the items are those
    of the rows before it, whatever follows. *)
Theorem printed_row_halts
  (b : gmap string float) (above below : list Row) (row : Row) (h : Z) :
  0 <= h < len above ->
  PyStr.contains "printed" (merged_text row) = true ->
  PyStr.contains "category total" (merged_text row) = false ->
  extract_line_items (above ++ row :: below) (Some h) (Some b)
  = extract_line_items above (Some h) (Some b).
Proof.
  intros Hh Hprinted Hcat. unfold extract_line_items.
  rewrite slice_from_app by lia.
  apply scan_rows_stops; assumption.
Qed.

Lemma printed_row_halts_witness :
  extract_line_items
    ([header_row; [(40, "Gadget"); (210, "1"); (310, "3.00"); (410, "3.00")]]
       ++ [(10, "Printed"); (80, "on"); (120, "Monday")]
       :: [[(40, "Widget"); (210, "2"); (310, "5.00"); (410, "10.00")]])
    (Some 0) (Some widget_boundaries)
  = extract_line_items
      [header_row; [(40, "Gadget"); (210, "1"); (310, "3.00"); (410, "3.00")]]
      (Some 0) (Some widget_boundaries).
Proof.
  apply printed_row_halts.
  - vm_compute. split; [discriminate | reflexivity].
  - vm_compute. reflexivity.
  - vm_compute. reflexivity.
Defined.

(** C7, as stated, fails: a row that contains "category total" is skipped
    before "printed" is looked for, so the scan goes on after it. *)
Lemma printed_in_category_total_row_does_not_halt :
  find_table_header
    [header_row;
     [(10, "Category"); (70, "Total"); (200, "printed")];
     [(40, "Widget"); (210, "2"); (310, "5.00"); (410, "10.00")]]
  = Returns (Some 0, Some widget_boundaries)
  /\ ~ (forall (b : gmap string float) (above below : list Row) (row : Row) (h : Z),
           0 <= h < len above ->
           PyStr.contains "printed" (merged_text row) = true ->
           extract_line_items (above ++ row :: below) (Some h) (Some b)
           = extract_line_items above (Some h) (Some b)).
Proof.
  split; [vm_compute; reflexivity |].
  intros H.
  specialize (H widget_boundaries [header_row]
                [[(40, "Widget"); (210, "2"); (310, "5.00"); (410, "10.00")]]
                [(10, "Category"); (70, "Total"); (200, "printed")] 0).
  assert (Heq : extract_line_items
                  ([header_row] ++ [(10, "Category"); (70, "Total"); (200, "printed")]
                     :: [[(40, "Widget"); (210, "2"); (310, "5.00"); (410, "10.00")]])
                  (Some 0) (Some widget_boundaries)
                = extract_line_items [header_row] (Some 0) (Some widget_boundaries)).
  { apply H.
    - vm_compute. split; [discriminate | reflexivity].
    - vm_compute. reflexivity. }
  vm_compute in Heq. discriminate Heq.
Qed.

End StopMarker.

(* ===================================================================== *)
(** ** Bucketing and absent boundaries *)
(* ===================================================================== *)

Section Bucketing.
Import Extractor Samples Terms.

Lemma before_absent (b : gmap string float) (key : string) (x : Z) :
  b !! key = None -> before b key x = (x <? 99999).
Proof. intros H. unfold before. rewrite H. reflexivity. Qed.

Lemma fold_place_no_desc_end (b : gmap string float) (row : Row) :
  b !! "desc_end" = None ->
  Forall (fun tok => fst tok < 99999) row ->
  forall cols,
    fold_left (place b) row cols
    = {| desc_col := desc_col cols ++ map snd row; qty_col := qty_col cols;
         rate_col := rate_col cols; amt_col := amt_col cols |}.
Proof.
  intros Hb. induction 1 as [| [x token] rest Hx _ IH]; intros cols; simpl.
  - rewrite app_nil_r. destruct cols; reflexivity.
  - rewrite IH. unfold place. rewrite (before_absent b _ x Hb).
    simpl in Hx. apply Z.ltb_lt in Hx. rewrite Hx. simpl.
    rewrite <- app_assoc. reflexivity.
Qed.

Lemma fold_place_no_qty_end (b : gmap string float) (row : Row) :
  b !! "qty_end" = None ->
  Forall (fun tok => fst tok < 99999) row ->
  forall cols,
    rate_col (fold_left (place b) row cols) = rate_col cols
    /\ amt_col (fold_left (place b) row cols) = amt_col cols.
Proof.
  intros Hb. induction 1 as [| [x token] rest Hx _ IH]; intros cols.
  - split; reflexivity.
  - cbn [fold_left]. destruct (IH (place b cols (x, token))) as [-> ->].
    unfold place. rewrite (before_absent b "qty_end" x Hb).
    simpl in Hx. apply Z.ltb_lt in Hx. rewrite Hx.
    destruct (before b "desc_end" x); split; reflexivity.
Qed.

Lemma fold_place_no_rate_end (b : gmap string float) (row : Row) :
  b !! "rate_end" = None ->
  Forall (fun tok => fst tok < 99999) row ->
  forall cols, amt_col (fold_left (place b) row cols) = amt_col cols.
Proof.
  intros Hb. induction 1 as [| [x token] rest Hx _ IH]; intros cols.
  - reflexivity.
  - cbn [fold_left]. rewrite IH. unfold place.
    rewrite (before_absent b "rate_end" x Hb).
    simpl in Hx. apply Z.ltb_lt in Hx. rewrite Hx.
    destruct (before b "desc_end" x), (before b "qty_end" x); reflexivity.
Qed.

(** C1, as the code has it. An absent boundary stands for the threshold
    99999. For a row whose tokens all lie left of 99999: without desc_end
    every token goes to the description bucket; without qty_end the rate
    and amount buckets stay empty; without rate_end the amount bucket
    stays empty. *)
Theorem absent_boundary_is_99999 (b : gmap string float) (row : Row) :
  Forall (fun tok => fst tok < 99999) row ->
  (forall key x, b !! key = None -> before b key x = (x <? 99999))
  /\ (b !! "desc_end" = None ->
      bucket_row b row
      = {| desc_col := map snd row; qty_col := []; rate_col := []; amt_col := [] |})
  /\ (b !! "qty_end" = None ->
      rate_col (bucket_row b row) = [] /\ amt_col (bucket_row b row) = [])
  /\ (b !! "rate_end" = None -> amt_col (bucket_row b row) = []).
Proof.
  intros Hrow. unfold bucket_row. split; [| split; [| split]].
  - intros key x. apply before_absent.
  - intros Hb. rewrite fold_place_no_desc_end by assumption. reflexivity.
  - intros Hb. apply (fold_place_no_qty_end b row Hb Hrow).
  - intros Hb. rewrite fold_place_no_rate_end by assumption. reflexivity.
Qed.

Lemma absent_boundary_is_99999_witness :
  bucket_row ∅ [(10, "Widget"); (410, "10.00")]
  = {| desc_col := ["Widget"; "10.00"]; qty_col := []; rate_col := []; amt_col := [] |}
  /\ (rate_col (bucket_row (<["desc_end" := PyFloat.dyadic 105 0]> ∅)
                  [(10, "Widget"); (410, "10.00")]) = []
      /\ amt_col (bucket_row (<["desc_end" := PyFloat.dyadic 105 0]> ∅)
                    [(10, "Widget"); (410, "10.00")]) = [])
  /\ amt_col (bucket_row (<["qty_end" := PyFloat.dyadic 250 0]>
                            (<["desc_end" := PyFloat.dyadic 105 0]> ∅))
                [(10, "Widget"); (410, "10.00")]) = [].
Proof.
  assert (Hrow : Forall (fun tok : Z * string => fst tok < 99999)
                   [(10, "Widget"); (410, "10.00")])
    by (repeat constructor).
  split; [| split].
  - apply (absent_boundary_is_99999 ∅ _ Hrow). reflexivity.
  - apply (absent_boundary_is_99999 (<["desc_end" := PyFloat.dyadic 105 0]> ∅) _ Hrow).
    vm_compute. reflexivity.
  - apply (absent_boundary_is_99999
             (<["qty_end" := PyFloat.dyadic 250 0]>
                (<["desc_end" := PyFloat.dyadic 105 0]> ∅)) _ Hrow).
    vm_compute. reflexivity.
Defined.

(** C1, as stated, fails: a token at x = 99999 is not left of the default
    threshold, and with no boundary at all it lands in the amount bucket. *)
Lemma far_token_leaves_description :
  bucket_row ∅ [(99999, "Widget")]
  = {| desc_col := []; qty_col := []; rate_col := []; amt_col := ["Widget"] |}
  /\ find_table_header far_rows = Returns (Some 0, Some ∅)
  /\ bucket_row ∅ [(5, "Widget"); (99999, "10.00")]
     = {| desc_col := ["Widget"]; qty_col := []; rate_col := []; amt_col := ["10.00"] |}
  /\ ~ (forall (b : gmap string float) (row : Row),
           b !! "desc_end" = None ->
           desc_col (bucket_row b row) = map snd row).
Proof.
  split; [vm_compute; reflexivity |].
  split; [vm_compute; reflexivity |].
  split; [vm_compute; reflexivity |].
  intros H. specialize (H ∅ [(99999, "Widget")] eq_refl).
  vm_compute in H. discriminate H.
Qed.

End Bucketing.

(* ===================================================================== *)
(** ** Emitted items *)
(* ===================================================================== *)

Section Items.
Import Extractor Samples Terms.

Lemma truthy_not_zero (f : float) : PyFloat.truthy f = true <-> ~ is_zero f.
Proof.
  unfold is_zero. destruct f; simpl; split; intros H; try reflexivity;
    try discriminate; try (intros [s0 Hs]; discriminate Hs).
  exfalso. apply H. eexists. reflexivity.
Qed.

Lemma or_default_cases (v : option float) (default : float) :
  (v = None -> or_default v default = default)
  /\ (forall f, v = Some f -> is_zero f -> or_default v default = default)
  /\ (forall f, v = Some f -> ~ is_zero f -> or_default v default = f).
Proof.
  repeat split.
  - intros ->. reflexivity.
  - intros f -> [s ->]. reflexivity.
  - intros f -> Hf. apply truthy_not_zero in Hf. simpl. rewrite Hf. reflexivity.
Qed.

Lemma row_item_some (b : gmap string float) (row : Row) (it : LineItem) :
  row_item b row = Returns (Some it) ->
  exists quantity rate_val amount,
    as_number (PyStr.join EmptyString (qty_col (bucket_row b row))) = Returns quantity
    /\ as_number (PyStr.join EmptyString (rate_col (bucket_row b row))) = Returns rate_val
    /\ first_number (amt_col (bucket_row b row)) = Returns (Some amount)
    /\ item_amount it = amount
    /\ item_quantity it = or_default quantity one
    /\ item_rate it = or_default rate_val amount.
Proof.
  unfold row_item. intros H.
  destruct (as_number (PyStr.join EmptyString (qty_col (bucket_row b row))))
    as [quantity | e]; simpl in H; [| discriminate].
  destruct (as_number (PyStr.join EmptyString (rate_col (bucket_row b row))))
    as [rate_val | e]; simpl in H; [| discriminate].
  destruct (first_number (amt_col (bucket_row b row)))
    as [[amount |] | e]; simpl in H; try discriminate.
  destruct (negb _); [discriminate |].
  injection H as <-. exists quantity, rate_val, amount. simpl. repeat split.
Qed.

Lemma row_item_no_amount (b : gmap string float) (row : Row) :
  first_number (amt_col (bucket_row b row)) = Returns None ->
  row_item b row = Returns None.
Proof.
  intros H. unfold row_item. rewrite !as_number_returns, H. reflexivity.
Qed.

Lemma scan_rows_items (b : gmap string float) (rs : list Row) :
  forall items out,
    scan_rows b rs items = Returns out ->
    forall it, In it out ->
      In it items \/ exists row, In row rs /\ row_item b row = Returns (Some it).
Proof.
  induction rs as [| row rest IH]; intros items out H it Hin; simpl in H.
  - injection H as <-. left. exact Hin.
  - assert (Hrest : forall items',
               scan_rows b rest items' = Returns out ->
               (forall i, In i items' ->
                          In i items \/ row_item b row = Returns (Some i)) ->
               In it items
               \/ exists r, In r (row :: rest) /\ row_item b r = Returns (Some it)).
    { intros items' Hs Hsub.
      destruct (IH items' out Hs it Hin) as [Hi | (r & Hr & Hit)].
      - destruct (Hsub it Hi) as [? | ?]; [left; assumption |].
        right. exists row. split; [left; reflexivity | assumption].
      - right. exists r. split; [right; assumption | assumption]. }
    destruct (PyStr.contains "category total" (merged_text row)).
    { apply (Hrest items H). intros i Hi. left. exact Hi. }
    destruct (PyStr.contains "printed" (merged_text row)).
    { injection H as <-. left. exact Hin. }
    destruct (row_item b row) as [[new |] | e] eqn:Hrow; simpl in H;
      [| | discriminate].
    + apply (Hrest _ H). intros i Hi. apply in_app_or in Hi.
      destruct Hi as [Hi | [<- | []]]; [left; exact Hi | right; reflexivity].
    + apply (Hrest items H). intros i Hi. left. exact Hi.
Qed.

Lemma In_slice_from {A : Type} (l : list A) (i : Z) (a : A) :
  In a (slice_from l i) -> In a l.
Proof.
  unfold slice_from. intros H.
  rewrite <- (firstn_skipn (Z.to_nat (if i <? 0 then Z.max 0 (len l + i) else i)) l).
  apply in_or_app. right. exact H.
Qed.

Lemma first_number_first (toks : list string) (a : float) :
  first_number toks = Returns (Some a) ->
  exists failed tok rest,
    toks = failed ++ tok :: rest
    /\ Forall (fun t => as_number t = Returns None) failed
    /\ as_number tok = Returns (Some a).
Proof.
  induction toks as [| t toks IH]; simpl; [discriminate |].
  destruct (as_number t) as [[v |] | e] eqn:Ht; simpl; [| | discriminate].
  - intros H. injection H as <-. exists [], t, toks. repeat split; [constructor | exact Ht].
  - intros H. destruct (IH H) as (failed & tok & rest & -> & Hfailed & Htok).
    exists (t :: failed), tok, rest. repeat split; [constructor; assumption | exact Htok].
Qed.

Lemma first_number_none (toks : list string) :
  Forall (fun t => as_number t = Returns None) toks ->
  first_number toks = Returns None.
Proof.
  induction 1 as [| t toks Ht _ IH]; simpl; [reflexivity |].
  rewrite Ht. simpl. exact IH.
Qed.

(** C9, as the code has it. A row in whose amount bucket no token coerces
    gives no item. Every emitted item comes from a row of the input: its
    amount is what the first token of the amount bucket that coerces
    coerces to (the tokens before it do not coerce); its quantity is the
    coerced quantity bucket, or 1.0 when that is absent or zero; its rate
    is the coerced rate bucket, or the amount when that is absent or
    zero. *)
Theorem emitted_item_fields (b : gmap string float) (rs : list Row) (h : Z) :
  (forall row,
      Forall (fun t => as_number t = Returns None) (amt_col (bucket_row b row)) ->
      row_item b row = Returns None)
  /\ (forall out it,
         extract_line_items rs (Some h) (Some b) = Returns out ->
         In it out ->
         exists row quantity rate_val failed tok rest,
           In row rs
           /\ amt_col (bucket_row b row) = failed ++ tok :: rest
           /\ Forall (fun t => as_number t = Returns None) failed
           /\ as_number tok = Returns (Some (item_amount it))
           /\ as_number (PyStr.join EmptyString (qty_col (bucket_row b row)))
              = Returns quantity
           /\ as_number (PyStr.join EmptyString (rate_col (bucket_row b row)))
              = Returns rate_val
           /\ (quantity = None -> item_quantity it = PyFloat.dyadic 1 0)
           /\ (forall q, quantity = Some q -> is_zero q ->
                         item_quantity it = PyFloat.dyadic 1 0)
           /\ (forall q, quantity = Some q -> ~ is_zero q -> item_quantity it = q)
           /\ (rate_val = None -> item_rate it = item_amount it)
           /\ (forall r, rate_val = Some r -> is_zero r ->
                         item_rate it = item_amount it)
           /\ (forall r, rate_val = Some r -> ~ is_zero r -> item_rate it = r)).
Proof.
  split.
  { intros row Hnone. apply row_item_no_amount, first_number_none, Hnone. }
  intros out it Hout Hin. unfold extract_line_items in Hout.
  destruct (scan_rows_items b _ [] out Hout it Hin) as [[] | (row & Hrow & Hit)].
  apply In_slice_from in Hrow.
  destruct (row_item_some b row it Hit)
    as (quantity & rate_val & amount & Hq & Hr & Ha & <- & -> & ->).
  destruct (first_number_first _ _ Ha) as (failed & tok & rest & Hcol & Hfailed & Htok).
  exists row, quantity, rate_val, failed, tok, rest.
  destruct (or_default_cases quantity one) as (Q1 & Q2 & Q3).
  destruct (or_default_cases rate_val (item_amount it)) as (R1 & R2 & R3).
  repeat split; assumption.
Qed.

Lemma emitted_item_fields_witness :
  row_item widget_boundaries [(40, "Widget"); (410, "n/a"); (450, "-")] = Returns None
  /\ exists row quantity rate_val failed tok rest,
      In row [header_row; three_amounts_row]
      /\ amt_col (bucket_row widget_boundaries row) = failed ++ tok :: rest
      /\ Forall (fun t => as_number t = Returns None) failed
      /\ as_number tok = Returns (Some (PyFloat.dyadic 7 0))
      /\ as_number (PyStr.join EmptyString (qty_col (bucket_row widget_boundaries row)))
         = Returns quantity
      /\ as_number (PyStr.join EmptyString (rate_col (bucket_row widget_boundaries row)))
         = Returns rate_val
      /\ (quantity = None -> PyFloat.dyadic 1 0 = PyFloat.dyadic 1 0)
      /\ (forall q, quantity = Some q -> is_zero q ->
                    PyFloat.dyadic 1 0 = PyFloat.dyadic 1 0)
      /\ (forall q, quantity = Some q -> ~ is_zero q -> PyFloat.dyadic 1 0 = q)
      /\ (rate_val = None -> PyFloat.dyadic 5 0 = PyFloat.dyadic 7 0)
      /\ (forall r, rate_val = Some r -> is_zero r ->
                    PyFloat.dyadic 5 0 = PyFloat.dyadic 7 0)
      /\ (forall r, rate_val = Some r -> ~ is_zero r -> PyFloat.dyadic 5 0 = r).
Proof.
  split.
  { apply (emitted_item_fields widget_boundaries [] 0). repeat constructor. }
  refine (proj2 (emitted_item_fields widget_boundaries
                   [header_row; three_amounts_row] 0)
            [ {| item_name := "Widget";
                 item_quantity := PyFloat.dyadic 1 0;
                 item_rate := PyFloat.dyadic 5 0;
                 item_amount := PyFloat.dyadic 7 0 |} ]
            {| item_name := "Widget";
               item_quantity := PyFloat.dyadic 1 0;
               item_rate := PyFloat.dyadic 5 0;
               item_amount := PyFloat.dyadic 7 0 |} _ _).
  - vm_compute. reflexivity.
  - left. reflexivity.
Defined.

(** C9, as stated, fails: a quantity bucket that reads "0" coerces to 0.0,
    which is present, and the item still gets the quantity 1.0. *)
Lemma zero_quantity_becomes_one :
  as_number (PyStr.join EmptyString (qty_col (bucket_row widget_boundaries zero_quantity_row)))
  = Returns (Some (S754_zero false))
  /\ extract_line_items [header_row; zero_quantity_row] (Some 0) (Some widget_boundaries)
     = Returns [ {| item_name := "Widget";
                    item_quantity := PyFloat.dyadic 1 0;
                    item_rate := PyFloat.dyadic 5 0;
                    item_amount := PyFloat.dyadic 10 0 |} ]
  /\ ~ (forall (b : gmap string float) (row : Row) (it : LineItem) (quantity : option float),
           row_item b row = Returns (Some it) ->
           as_number (PyStr.join EmptyString (qty_col (bucket_row b row))) = Returns quantity ->
           item_quantity it
           = match quantity with Some q => q | None => PyFloat.dyadic 1 0 end).
Proof.
  split; [vm_compute; reflexivity |].
  split; [vm_compute; reflexivity |].
  intros H.
  assert (Hq : PyFloat.dyadic 1 0 = S754_zero false).
  { apply (H widget_boundaries zero_quantity_row
             {| item_name := "Widget";
                item_quantity := PyFloat.dyadic 1 0;
                item_rate := PyFloat.dyadic 5 0;
                item_amount := PyFloat.dyadic 10 0 |}
             (Some (S754_zero false))); vm_compute; reflexivity. }
  vm_compute in Hq. discriminate Hq.
Qed.

End Items.

(* ===================================================================== *)
(** ** The header locator *)
(* ===================================================================== *)

Section Header.
Import Extractor Samples Terms.

Lemma length_insert_by {A : Type} (key : A -> Z) (t : A) (l : list A) :
  length (insert_by key t l) = S (length l).
Proof.
  induction l as [| a l IH]; simpl; [reflexivity |].
  destruct (key t <? key a); simpl; [reflexivity | rewrite IH; reflexivity].
Qed.

Lemma length_sorted_by {A : Type} (key : A -> Z) (l : list A) :
  length (sorted_by key l) = length l.
Proof.
  unfold sorted_by.
  assert (H : forall acc : list A,
             length (fold_left (fun acc t => insert_by key t acc) l acc)
             = (length l + length acc)%nat).
  { induction l as [| a l IH]; intros acc; simpl; [reflexivity |].
    rewrite IH, length_insert_by. lia. }
  rewrite H. simpl. lia.
Qed.

Lemma set_position_filled (positions : Positions) (tok : Z * string) :
  (filled (set_position positions tok)
   <= filled positions + length (classified [tok]))%nat.
Proof.
  destruct tok as [x word]. unfold set_position, classified, filled.
  cbn [List.filter snd].
  destruct (slot_of word) as [[] |]; destruct positions as [[d |] [q |] [r |] [a |]];
    cbn; lia.
Qed.

Lemma classified_cons (tok : Z * string) (row : Row) :
  length (classified (tok :: row))
  = (length (classified [tok]) + length (classified row))%nat.
Proof.
  unfold classified. simpl.
  destruct (slot_of (snd tok)); reflexivity.
Qed.

Lemma fold_set_position_filled (row : Row) :
  forall positions,
    (filled (fold_left set_position row positions)
     <= filled positions + length (classified row))%nat.
Proof.
  induction row as [| tok row IH]; intros positions.
  - simpl. lia.
  - cbn [fold_left]. rewrite classified_cons.
    specialize (IH (set_position positions tok)).
    pose proof (set_position_filled positions tok). lia.
Qed.

Lemma add_boundary_short (xs : list Z) (i : nat) (key : string)
  (b : gmap string float) :
  (length xs <= S i)%nat -> add_boundary xs i key b = Returns b.
Proof.
  intros H. unfold add_boundary, len.
  destruct (Z.of_nat i + 1 <? Z.of_nat (length xs)) eqn:Hlt; [| reflexivity].
  apply Z.ltb_lt in Hlt. lia.
Qed.

Lemma header_boundaries_few_labels (row : Row) :
  (length (classified row) < 2)%nat -> header_boundaries row = Returns ∅.
Proof.
  intros H. unfold header_boundaries.
  set (positions := fold_left set_position row _).
  assert (Hlen : (length (sorted_by id (present (positions_values positions))) <= 1)%nat).
  { rewrite length_sorted_by.
    pose proof (fold_set_position_filled row
                  {| desc := None; qty := None; rate := None; amt := None |}) as Hf.
    fold positions in Hf.
    change (filled {| desc := None; qty := None; rate := None; amt := None |})
      with 0%nat in Hf.
    change (filled positions <= 1)%nat. lia. }
  rewrite (add_boundary_short _ 0) by lia. cbn [bind].
  rewrite (add_boundary_short _ 1) by lia. cbn [bind].
  apply add_boundary_short. lia.
Qed.

Lemma find_header_app (above below : list Row) (row : Row) :
  Forall (fun r => is_header_text (merged_text r) = false) above ->
  is_header_text (merged_text row) = true ->
  forall idx, find_header idx (above ++ row :: below) = Some (idx + len above, row).
Proof.
  intros Habove Hrow.
  induction Habove as [| r above Hr _ IH]; intros idx; simpl.
  - rewrite Hrow. unfold len. simpl. rewrite Z.add_0_r. reflexivity.
  - rewrite Hr, IH. unfold len. simpl length. f_equal. f_equal. lia.
Qed.

Lemma slice_from_header {A : Type} (above below : list A) (row : A) :
  slice_from (above ++ row :: below) (len above + 1) = below.
Proof.
  unfold slice_from, len.
  destruct (Z.of_nat (length above) + 1 <? 0) eqn:Hneg;
    [apply Z.ltb_lt in Hneg; lia |].
  replace (Z.to_nat (Z.of_nat (length above) + 1)) with (S (length above)) by lia.
  change (row :: below) with ([row] ++ below). rewrite app_assoc.
  rewrite skipn_app.
  replace (S (length above) - length (above ++ [row]))%nat with 0%nat
    by (rewrite length_app; simpl; lia).
  rewrite skipn_all2 by (rewrite length_app; simpl; lia).
  reflexivity.
Qed.

(** The bound in [int_truediv] is where the rounded quotient leaves the
    floats: at the limit the quotient rounds to infinity, just below it to
    the largest float. *)
Lemma int_truediv_at_the_limit :
  SFdiv PyFloat.prec PyFloat.emax
    (PyFloat.exact_int (2 * PyFloat.overflow_limit)) (PyFloat.exact_int 2)
  = S754_infinity false
  /\ PyFloat.int_truediv (2 * PyFloat.overflow_limit - 1) 2
     = Returns (S754_finite false (2 ^ 53 - 1) 971).
Proof. split; vm_compute; reflexivity. Qed.

Lemma int_truediv_by_two_returns (n : Z) :
  Z.abs n < 2 ^ 64 -> exists v, PyFloat.int_truediv n 2 = Returns v.
Proof.
  intros Hn. unfold PyFloat.int_truediv.
  assert (Hlimit : 2 ^ 64 <= PyFloat.overflow_limit * Z.abs 2)
    by (vm_compute; discriminate).
  destruct (2 =? 0) eqn:H2; [discriminate |].
  destruct (PyFloat.overflow_limit * Z.abs 2 <=? Z.abs n) eqn:Hover.
  - apply Z.leb_le in Hover. lia.
  - eexists. reflexivity.
Qed.

Lemma Forall_insert_by {A : Type} (P : A -> Prop) (key : A -> Z) (t : A) (l : list A) :
  P t -> Forall P l -> Forall P (insert_by key t l).
Proof.
  intros Ht. induction 1 as [| a l Ha Hl IH]; simpl.
  - constructor; [exact Ht | constructor].
  - destruct (key t <? key a).
    + constructor; [exact Ht | constructor; assumption].
    + constructor; assumption.
Qed.

Lemma Forall_sorted_by {A : Type} (P : A -> Prop) (key : A -> Z) (l : list A) :
  Forall P l -> Forall P (sorted_by key l).
Proof.
  unfold sorted_by. intros H.
  assert (Hacc : forall acc, Forall P acc ->
             Forall P (fold_left (fun acc t => insert_by key t acc) l acc)).
  { induction H as [| a l Ha Hl IH]; intros acc Hacc; simpl; [exact Hacc |].
    apply IH, Forall_insert_by; assumption. }
  apply Hacc. constructor.
Qed.

Lemma small_nth (xs : list Z) (i : nat) : Forall small xs -> small (nth i xs 0).
Proof.
  intros H. revert i. induction H as [| x xs Hx Hxs IH]; intros [| i]; simpl;
    try exact Hx; try apply IH; unfold small; simpl; lia.
Qed.

Lemma set_position_small (positions : Positions) (tok : Z * string) :
  small (fst tok) -> small_positions positions ->
  small_positions (set_position positions tok).
Proof.
  destruct tok as [x word]. unfold set_position, small_positions. simpl.
  intros Hx.
  destruct (slot_of word) as [[] |]; destruct positions as [[d |] [q |] [r |] [a |]];
    cbn; intros H; repeat match goal with
                          | H : Forall _ (_ :: _) |- _ => inversion H; clear H; subst
                          end; repeat constructor; assumption.
Qed.

Lemma fold_set_position_small (row : Row) :
  Forall (fun tok => small (fst tok)) row ->
  forall positions, small_positions positions ->
    small_positions (fold_left set_position row positions).
Proof.
  induction 1 as [| tok row Htok _ IH]; intros positions Hp; simpl.
  - exact Hp.
  - apply IH, set_position_small; assumption.
Qed.

Lemma add_boundary_returns (xs : list Z) (i : nat) (key : string)
  (b : gmap string float) :
  Forall small xs -> exists b', add_boundary xs i key b = Returns b'.
Proof.
  intros Hxs. unfold add_boundary.
  destruct (Z.of_nat i + 1 <? len xs); [| eexists; reflexivity].
  destruct (int_truediv_by_two_returns (nth i xs 0 + nth (S i) xs 0)) as [v ->].
  - pose proof (small_nth xs i Hxs). pose proof (small_nth xs (S i) Hxs).
    unfold small in *. lia.
  - eexists. reflexivity.
Qed.

Lemma find_header_In (rs : list Row) :
  forall idx h row, find_header idx rs = Some (h, row) -> In row rs.
Proof.
  induction rs as [| r rs IH]; intros idx h row H; simpl in H; [discriminate |].
  destruct (is_header_text (merged_text r)).
  - injection H as _ <-. left. reflexivity.
  - right. apply (IH _ _ _ H).
Qed.

(** The header locator returns on rows whose coordinates are small. *)
Lemma find_table_header_returns (rs : list Row) :
  Forall (Forall (fun tok => small (fst tok))) rs ->
  exists hi b, find_table_header rs = Returns (hi, b).
Proof.
  intros Hrs. unfold find_table_header.
  destruct (find_header 0 rs) as [[idx row] |] eqn:Hfind; [| eexists _, _; reflexivity].
  assert (Hrow : Forall (fun tok => small (fst tok)) row).
  { rewrite List.Forall_forall in Hrs. apply Hrs. apply (find_header_In _ _ _ _ Hfind). }
  unfold header_boundaries.
  set (xs := sorted_by id _).
  assert (Hxs : Forall small xs).
  { apply Forall_sorted_by. apply (fold_set_position_small row Hrow). constructor. }
  destruct (add_boundary_returns xs 0 "desc_end" ∅ Hxs) as [b1 ->]. cbn [bind].
  destruct (add_boundary_returns xs 1 "qty_end" b1 Hxs) as [b2 ->]. cbn [bind].
  destruct (add_boundary_returns xs 2 "rate_end" b2 Hxs) as [b3 ->]. cbn [bind].
  eexists _, _. reflexivity.
Qed.

(** So does the pipeline from the rows on. *)
Lemma bill_info_from_rows_returns (rs : list Row) :
  Forall (Forall (fun tok => small (fst tok))) rs ->
  exists env, bill_info_from_rows rs = Returns env.
Proof.
  intros Hrs. unfold bill_info_from_rows.
  destruct (find_table_header_returns rs Hrs) as (hi & b & ->). cbn [bind].
  destruct (extract_line_items_returns rs hi b) as [items ->]. cbn [bind].
  eexists. reflexivity.
Qed.

(** C10. The two outputs of the header locator are absent together. When
    the header row (the first row that satisfies the header predicate) has
    fewer than two classified tokens, the boundaries are the empty mapping,
    which is present, and the extractor runs its loop over the rows after
    the header. On [far_rows] that loop emits an item, which the
    short-circuit never does. *)
Theorem header_outputs_are_coupled :
  (forall (rs : list Row) hi b,
      find_table_header rs = Returns (hi, b) -> (hi = None <-> b = None))
  /\ (forall (above below : list Row) (row : Row),
         Forall (fun r => is_header_text (merged_text r) = false) above ->
         is_header_text (merged_text row) = true ->
         (length (classified row) < 2)%nat ->
         find_table_header (above ++ row :: below)
         = Returns (Some (len above), Some ∅)
         /\ extract_line_items (above ++ row :: below) (Some (len above)) (Some ∅)
            = scan_rows ∅ below [])
  /\ (find_table_header far_rows = Returns (Some 0, Some ∅)
      /\ extract_line_items far_rows (Some 0) (Some ∅) = Returns [far_item]
      /\ extract_line_items far_rows (Some 0) None = Returns []).
Proof.
  split; [| split].
  - intros rs hi b. unfold find_table_header.
    destruct (find_header 0 rs) as [[idx row] |].
    + destruct (header_boundaries row); simpl; intros H; [| discriminate].
      injection H as <- <-. split; discriminate.
    + intros H. injection H as <- <-. split; reflexivity.
  - intros above below row Habove Hrow Hfew. split.
    + unfold find_table_header. rewrite (find_header_app above below row Habove Hrow).
      rewrite (header_boundaries_few_labels row Hfew). reflexivity.
    + unfold extract_line_items. rewrite slice_from_header. reflexivity.
  - repeat split; vm_compute; reflexivity.
Qed.

Lemma header_outputs_are_coupled_witness :
  ((Some 0 : option Z) = None <-> (Some (∅ : gmap string float)) = None)
  /\ find_table_header ([] ++ [(10, "Qty/Amount")] :: [[(5, "Widget"); (99999, "10.00")]])
     = Returns (Some (len ([] : list Row)), Some ∅)
  /\ extract_line_items ([] ++ [(10, "Qty/Amount")] :: [[(5, "Widget"); (99999, "10.00")]])
       (Some (len ([] : list Row))) (Some ∅)
     = scan_rows ∅ [[(5, "Widget"); (99999, "10.00")]] [].
Proof.
  destruct header_outputs_are_coupled as (Hcoupled & Hfew & _).
  split.
  - apply (Hcoupled far_rows). vm_compute. reflexivity.
  - apply (Hfew [] [[(5, "Widget"); (99999, "10.00")]] [(10, "Qty/Amount")]).
    + constructor.
    + vm_compute. reflexivity.
    + vm_compute. lia.
Defined.

End Header.

(* ===================================================================== *)
(** ** The endpoint *)
(* ===================================================================== *)

Section Endpoint.
Import Extractor Samples.

(** The endpoint always returns, with one of two responses. *)
Lemma extract_bill_data_cases (C : Collaborators) (payload : App.BillRequest) :
  match extract_bill_info_from_url C (App.document payload) with
  | Returns env =>
      App.extract_bill_data C payload
      = Returns {| App.is_success := true; App.data := Some env; App.error := None |}
  | Raises e =>
      App.extract_bill_data C payload
      = Returns {| App.is_success := false; App.data := None;
                   App.error := Some (String.append "Processing failed: " (exn_str e)) |}
  end.
Proof.
  unfold App.extract_bill_data.
  destruct (extract_bill_info_from_url C (App.document payload)); reflexivity.
Qed.

(** C4. On a request that succeeds, [data] of the response is the whole
    dictionary returned by [extract_bill_info_from_url], with its own
    [is_success] and [data]; the extraction result sits one level below.
    On a request whose download fails, [is_success] is false, [data] is
    [None] and [error] is the message. *)
Theorem extract_bill_data_nests_envelope :
  App.extract_bill_data (fixed_ocr widget_ocr) {| App.document := "http://bill" |}
  = Returns {| App.is_success := true;
               App.data := Some {| is_success := true;
                                   data := data widget_result |};
               App.error := None |}
  /\ App.extract_bill_data (failing_download (mk_exn "HTTPError" "404 Client Error"))
       {| App.document := "http://bill" |}
     = Returns {| App.is_success := false;
                  App.data := None;
                  App.error := Some "Processing failed: 404 Client Error" |}.
Proof.
  split; vm_compute; reflexivity.
Qed.

End Endpoint.

(* ********************************************************************* *)
(** * Further properties *)
(* ********************************************************************* *)

(* ===================================================================== *)
(** ** Row grouping: what the rows hold *)
(* ===================================================================== *)

Section GroupingMore.
Import Extractor Segments Further.

Lemma insert_by_perm {A : Type} (key : A -> Z) (t : A) (l : list A) :
  Permutation (insert_by key t l) (t :: l).
Proof.
  induction l as [| a l IH]; simpl; [reflexivity |].
  destruct (key t <? key a); [reflexivity |].
  rewrite IH. apply perm_swap.
Qed.

Lemma sorted_by_perm {A : Type} (key : A -> Z) (l : list A) :
  Permutation (sorted_by key l) l.
Proof.
  unfold sorted_by.
  assert (H : forall acc,
             Permutation (fold_left (fun acc t => insert_by key t acc) l acc)
                         (acc ++ l)).
  { induction l as [| a l IH]; intros acc; simpl.
    - rewrite app_nil_r. reflexivity.
    - rewrite IH, insert_by_perm.
      change (a :: acc ++ l) with ((a :: acc) ++ l).
      rewrite (Permutation_middle acc l a). reflexivity. }
  apply (H []).
Qed.

Lemma insert_by_ascending {A : Type} (key : A -> Z) (t : A) (l : list A) :
  ascending key l -> ascending key (insert_by key t l).
Proof.
  induction l as [| a l IH]; intros Hl; [exact I |].
  cbn [insert_by]. destruct (key t <? key a) eqn:Hlt.
  - apply Z.ltb_lt in Hlt. split; [lia | exact Hl].
  - apply Z.ltb_ge in Hlt. destruct l as [| b l].
    + simpl. split; [exact Hlt | exact I].
    + destruct Hl as [Hab Hrest]. specialize (IH Hrest).
      cbn [insert_by] in IH |- *. destruct (key t <? key b) eqn:Htb.
      * split; [exact Hlt | exact IH].
      * split; [exact Hab | exact IH].
Qed.

Lemma sorted_by_ascending {A : Type} (key : A -> Z) (l : list A) :
  ascending key (sorted_by key l).
Proof.
  unfold sorted_by.
  assert (H : forall acc, ascending key acc ->
             ascending key (fold_left (fun acc t => insert_by key t acc) l acc)).
  { induction l as [| a l IH]; intros acc Hacc; simpl; [exact Hacc |].
    apply IH, insert_by_ascending, Hacc. }
  apply H. exact I.
Qed.

Lemma zip3_ocr_of_tokens (toks : list Token) :
  zip3 (ocr_left (ocr_of_tokens toks)) (ocr_top (ocr_of_tokens toks))
       (ocr_text (ocr_of_tokens toks)) = toks.
Proof.
  induction toks as [| [[x y] t] toks IH]; [reflexivity |].
  simpl in *. rewrite IH. reflexivity.
Qed.

Lemma kept_app (l1 l2 : list Token) : kept (l1 ++ l2) = kept l1 ++ kept l2.
Proof.
  induction l1 as [| [[x y] token] l1 IH]; simpl; [reflexivity |].
  destruct (PyStr.truthy (PyStr.strip token)); simpl; rewrite IH; reflexivity.
Qed.

Lemma gaps_extend_last threshold (segs : list (list Token)) (cur more : list Token) :
  cur <> [] ->
  gaps threshold (segs ++ [cur]) -> gaps threshold (segs ++ [cur ++ more]).
Proof.
  intros Hcur. induction segs as [| s segs IH]; intros H; [exact I |].
  destruct segs as [| s2 segs].
  - simpl in *. destruct H as [Hfar _]. split; [| exact I].
    unfold far in *. destruct (rev s); [exact Hfar |].
    destruct cur; [contradiction | exact Hfar].
  - change (gaps threshold (s :: s2 :: (segs ++ [cur ++ more]))).
    change (gaps threshold (s :: s2 :: (segs ++ [cur]))) in H.
    destruct H as [Hfar Hrest]. split; [exact Hfar | apply IH, Hrest].
Qed.

Lemma gaps_snoc threshold (segs : list (list Token)) (cur next : list Token) :
  gaps threshold (segs ++ [cur]) -> far threshold cur next ->
  gaps threshold ((segs ++ [cur]) ++ [next]).
Proof.
  intros H Hfar. induction segs as [| s segs IH].
  - simpl. split; [exact Hfar | exact I].
  - destruct segs as [| s2 segs].
    + simpl in *. destruct H as [H1 _]. repeat split; assumption.
    + change (gaps threshold (s :: s2 :: ((segs ++ [cur]) ++ [next]))).
      change (gaps threshold (s :: s2 :: (segs ++ [cur]))) in H.
      destruct H as [H1 Hrest]. split; [exact H1 | apply IH, Hrest].
Qed.

Lemma segment_step_read threshold done st tok :
  read_so_far threshold done st ->
  read_so_far threshold (done ++ [tok]) (segment_step threshold st tok).
Proof.
  intros (Hcat & Hne & Hy & Hgaps). destruct tok as [[x y] token].
  unfold read_so_far, segment_step. rewrite kept_app. cbn [kept].
  destruct (PyStr.truthy (PyStr.strip token)); cbn [negb];
    [| rewrite app_nil_r; repeat split; assumption].
  destruct (same_line threshold (last_y st) y) eqn:Hsame; cbn [segments current_segment last_y].
  - split; [rewrite app_assoc, Hcat; reflexivity |].
    split; [exact Hne |].
    split; [exists (current_segment st), (x, y, PyStr.strip token); split; reflexivity |].
    destruct (last_y st) as [py |].
    + destruct Hy as (seg & t & Hcur & _).
      apply gaps_extend_last; [| exact Hgaps].
      rewrite Hcur. destruct seg; discriminate.
    + destruct Hy as [-> ->]. exact I.
  - destruct (last_y st) as [py |]; [| discriminate Hsame].
    destruct Hy as (seg & t & Hcur & Hpy).
    split; [rewrite concat_app; simpl; rewrite app_nil_r, Hcat; reflexivity |].
    split; [apply Forall_app; split; [exact Hne |];
            constructor; [rewrite Hcur; destruct seg; discriminate | constructor] |].
    split; [exists [], (x, y, PyStr.strip token); split; reflexivity |].
    apply gaps_snoc; [exact Hgaps |].
    unfold far. rewrite Hcur, rev_unit.
    unfold same_line in Hsame. apply Z.leb_gt in Hsame.
    unfold token_y at 1. simpl. rewrite Hpy. exact Hsame.
Qed.

Lemma fold_read threshold toks :
  forall done st, read_so_far threshold done st ->
    read_so_far threshold (done ++ toks) (fold_left (segment_step threshold) toks st).
Proof.
  induction toks as [| tok toks IH]; intros done st H.
  - rewrite app_nil_r. exact H.
  - cbn [fold_left].
    replace (done ++ tok :: toks) with ((done ++ [tok]) ++ toks)
      by (rewrite <- app_assoc; reflexivity).
    apply IH, segment_step_read, H.
Qed.

(** The segments are the kept tokens, none is empty, and two neighbours
    are separated by a jump in y. *)
Lemma group_segments_read (ocr : ocr_data) (threshold : Z) :
  concat (group_segments ocr threshold)
  = kept (zip3 (ocr_left ocr) (ocr_top ocr) (ocr_text ocr))
  /\ Forall (fun seg => seg <> []) (group_segments ocr threshold)
  /\ gaps threshold (group_segments ocr threshold).
Proof.
  unfold group_segments. set (toks := zip3 _ _ _).
  destruct (fold_read threshold toks []
              {| segments := []; current_segment := []; last_y := None |})
    as (Hcat & Hne & Hy & Hgaps).
  { repeat split; constructor. }
  cbn [app] in Hcat.
  destruct (current_segment _) as [| t cur] eqn:Hcur.
  - destruct (last_y _) as [py |].
    + destruct Hy as (seg & u & Hseg & _). destruct seg; discriminate.
    + destruct Hy as [Hsegs _]. rewrite Hsegs in *. repeat split; auto.
  - split; [rewrite concat_app; simpl; rewrite app_nil_r; exact Hcat |].
    split; [apply Forall_app; split; [exact Hne | constructor; [discriminate | constructor]] |].
    exact Hgaps.
Qed.

Lemma group_segments_chained (ocr : ocr_data) (threshold : Z) :
  Forall (chain_close threshold) (group_segments ocr threshold).
Proof.
  unfold group_segments. set (toks := zip3 _ _ _).
  destruct (fold_chained threshold toks
              {| segments := []; current_segment := []; last_y := None |})
    as (Hs & Hc & _).
  { repeat split; simpl; constructor. }
  destruct (current_segment _) as [| t seg] eqn:Hcur.
  - exact Hs.
  - apply Forall_app. split; [exact Hs | constructor; [exact Hc | constructor]].
Qed.

Lemma concat_rows_perm (segs : list (list Token)) :
  Permutation (concat (map row_of_segment segs)) (map drop_y (concat segs)).
Proof.
  induction segs as [| seg segs IH]; simpl; [reflexivity |].
  rewrite map_app. unfold row_of_segment at 1.
  rewrite sorted_by_perm, IH. reflexivity.
Qed.

(** X1. Row grouping loses and invents nothing: the tokens of the rows,
    taken together, are the input tokens whose stripped text is not empty,
    each with its x and its stripped text. *)
Theorem rows_hold_the_kept_tokens (ocr : ocr_data) (threshold : Z) :
  Permutation (concat (group_tokens_by_line ocr threshold))
    (map drop_y (kept (zip3 (ocr_left ocr) (ocr_top ocr) (ocr_text ocr)))).
Proof.
  rewrite group_tokens_by_line_segments, concat_rows_perm.
  destruct (group_segments_read ocr threshold) as (-> & _). reflexivity.
Qed.

(** X2. Every row is non-empty and its tokens are in ascending order
    of x. *)
Theorem rows_are_nonempty_and_ascending (ocr : ocr_data) (threshold : Z) (row : Row) :
  In row (group_tokens_by_line ocr threshold) ->
  row <> [] /\ ascending fst row.
Proof.
  rewrite group_tokens_by_line_segments. intros Hin.
  apply in_map_iff in Hin. destruct Hin as (seg & <- & Hseg).
  destruct (group_segments_read ocr threshold) as (_ & Hne & _).
  rewrite List.Forall_forall in Hne. specialize (Hne seg Hseg).
  split; [| apply sorted_by_ascending].
  intros Hrow. apply (f_equal (@length _)) in Hrow.
  unfold row_of_segment in Hrow. rewrite length_sorted_by, length_map in Hrow.
  destruct seg; [contradiction | discriminate].
Qed.

Lemma rows_are_nonempty_and_ascending_witness :
  [(10, "1"); (40, "Widget"); (210, "2"); (310, "5.00"); (410, "10.00")] <> []
  /\ ascending fst [(10, "1"); (40, "Widget"); (210, "2"); (310, "5.00"); (410, "10.00")].
Proof.
  apply (rows_are_nonempty_and_ascending Samples.widget_ocr 12).
  vm_compute. right. left. reflexivity.
Defined.

(** X3. A new row starts only at a jump: the last token read into a row
    and the first token read into the next row are more than the threshold
    apart in y. *)
Theorem rows_break_at_jumps (ocr : ocr_data) (threshold : Z) :
  group_tokens_by_line ocr threshold
  = map row_of_segment (group_segments ocr threshold)
  /\ gaps threshold (group_segments ocr threshold).
Proof.
  split; [apply group_tokens_by_line_segments | apply group_segments_read].
Qed.

Lemma fold_group_step_not_blank threshold (toks : list Token) :
  forall st,
    fold_left (group_step threshold) (List.filter not_blank toks) st
    = fold_left (group_step threshold) toks st.
Proof.
  induction toks as [| [[x y] token] toks IH]; intros st; [reflexivity |].
  cbn [List.filter fold_left]. unfold not_blank at 1. cbn [snd].
  destruct (PyStr.truthy (PyStr.strip token)) eqn:Hblank.
  - cbn [fold_left]. apply IH.
  - rewrite IH. f_equal. unfold group_step. rewrite Hblank. reflexivity.
Qed.

(** X4. Tokens whose text is blank play no part: dropping them from the
    input before grouping gives the same rows. *)
Theorem blank_tokens_are_ignored (toks : list Token) (threshold : Z) :
  group_tokens_by_line (ocr_of_tokens (List.filter not_blank toks)) threshold
  = group_tokens_by_line (ocr_of_tokens toks) threshold.
Proof.
  unfold group_tokens_by_line. rewrite !zip3_ocr_of_tokens.
  rewrite fold_group_step_not_blank. reflexivity.
Qed.

Lemma chain_close_negative threshold (seg : list Token) :
  threshold < 0 -> chain_close threshold seg -> (length seg <= 1)%nat.
Proof.
  intros Hneg H. destruct seg as [| a [| b seg]]; simpl; try lia.
  destruct H as [Hab _]. lia.
Qed.

(** X5. With a negative threshold no token is close to the one before it:
    every row holds exactly one token. *)
Theorem negative_threshold_gives_single_token_rows
  (ocr : ocr_data) (threshold : Z) (row : Row) :
  threshold < 0 ->
  In row (group_tokens_by_line ocr threshold) ->
  length row = 1%nat.
Proof.
  intros Hneg. rewrite group_tokens_by_line_segments. intros Hin.
  apply in_map_iff in Hin. destruct Hin as (seg & <- & Hseg).
  destruct (group_segments_read ocr threshold) as (_ & Hne & _).
  pose proof (group_segments_chained ocr threshold) as Hchain.
  rewrite List.Forall_forall in Hne, Hchain.
  specialize (Hne seg Hseg). specialize (Hchain seg Hseg).
  apply (chain_close_negative _ _ Hneg) in Hchain.
  unfold row_of_segment. rewrite length_sorted_by, length_map.
  destruct seg as [| a [| b seg]]; simpl in *; [contradiction | reflexivity | lia].
Qed.

Lemma negative_threshold_gives_single_token_rows_witness :
  length [(50, "b")] = 1%nat.
Proof.
  apply (negative_threshold_gives_single_token_rows staircase (-1)).
  - lia.
  - vm_compute. right. left. reflexivity.
Defined.

Lemma In_zip3_top (xs ys : list Z) (ts : list string) (t : Token) :
  In t (zip3 xs ys ts) -> In (token_y t) ys.
Proof.
  revert ys ts. induction xs as [| x xs IH]; intros [| y ys] [| s ts] H;
    simpl in H; try contradiction.
  destruct H as [<- | H]; [left; reflexivity | right; apply (IH _ _ H)].
Qed.

Lemma In_zip3_left (xs ys : list Z) (ts : list string) (t : Token) :
  In t (zip3 xs ys ts) -> In (fst (fst t)) xs.
Proof.
  revert ys ts. induction xs as [| x xs IH]; intros [| y ys] [| s ts] H;
    simpl in H; try contradiction.
  destruct H as [<- | H]; [left; reflexivity | right; apply (IH _ _ H)].
Qed.

(** A kept token is an input token with its text stripped. *)
Lemma In_kept (toks : list Token) (t : Token) :
  In t (kept toks) ->
  exists token, In (fst (fst t), token_y t, token) toks /\ snd t = PyStr.strip token.
Proof.
  induction toks as [| [[x y] token] toks IH]; simpl; [contradiction |].
  destruct (PyStr.truthy (PyStr.strip token)).
  - intros [<- | H].
    + exists token. split; [left; reflexivity | reflexivity].
    + destruct (IH H) as (tk & Hin & Hs). exists tk. split; [right; exact Hin | exact Hs].
  - intros H. destruct (IH H) as (tk & Hin & Hs). exists tk. split; [right; exact Hin | exact Hs].
Qed.

(** X6. When all the y of the input lie within the threshold of one
    another, the tokens form at most one row. *)
Theorem close_tokens_form_one_row (ocr : ocr_data) (threshold : Z) :
  (forall y1 y2, In y1 (ocr_top ocr) -> In y2 (ocr_top ocr) ->
                 Z.abs (y1 - y2) <= threshold) ->
  (length (group_tokens_by_line ocr threshold) <= 1)%nat.
Proof.
  intros Hclose. rewrite group_tokens_by_line_segments, length_map.
  destruct (group_segments_read ocr threshold) as (Hcat & Hne & Hgaps).
  destruct (group_segments ocr threshold) as [| s1 [| s2 segs]]; simpl; try lia.
  exfalso. destruct Hgaps as [Hfar _]. unfold far in Hfar.
  destruct (rev s1) as [| a r1] eqn:Hr1; [contradiction |].
  destruct s2 as [| b r2]; [contradiction |].
  assert (Ha : In a (kept (zip3 (ocr_left ocr) (ocr_top ocr) (ocr_text ocr)))).
  { rewrite <- Hcat. cbn [concat]. apply in_or_app. left.
    apply in_rev. rewrite Hr1. left. reflexivity. }
  assert (Hb : In b (kept (zip3 (ocr_left ocr) (ocr_top ocr) (ocr_text ocr)))).
  { rewrite <- Hcat. cbn [concat]. apply in_or_app. right. apply in_or_app. left.
    left. reflexivity. }
  destruct (In_kept _ _ Ha) as (ta & Hta & _).
  destruct (In_kept _ _ Hb) as (tb & Htb & _).
  apply In_zip3_top in Hta. apply In_zip3_top in Htb.
  unfold token_y at 1 in Hta. unfold token_y at 1 in Htb. simpl in Hta, Htb.
  specialize (Hclose _ _ Htb Hta). lia.
Qed.

Lemma close_tokens_form_one_row_witness :
  (length (group_tokens_by_line staircase 20) <= 1)%nat.
Proof.
  apply close_tokens_form_one_row.
  intros y1 y2 H1 H2. simpl in H1, H2.
  destruct H1 as [<- | [<- | [<- | []]]]; destruct H2 as [<- | [<- | [<- | []]]];
    vm_compute; discriminate.
Defined.

Lemma filter_above_head {A : Type} (key : A -> Z) (k : Z) (l : list A) :
  ascending key l ->
  match l with a :: _ => k < key a | [] => True end ->
  List.filter (fun a => key a =? k) l = [].
Proof.
  induction l as [| a l IH]; intros Hasc Hk; [reflexivity |].
  cbn [List.filter]. destruct (key a =? k) eqn:Heq; [apply Z.eqb_eq in Heq; lia |].
  apply IH.
  - destruct l; [exact I | apply Hasc].
  - destruct l as [| b l]; [exact I |]. destruct Hasc as [Hab _]. lia.
Qed.

Lemma insert_by_filter {A : Type} (key : A -> Z) (k : Z) (t : A) (l : list A) :
  ascending key l ->
  List.filter (fun a => key a =? k) (insert_by key t l)
  = List.filter (fun a => key a =? k) l ++ (if key t =? k then [t] else []).
Proof.
  induction l as [| a l IH]; intros Hasc; [reflexivity |].
  cbn [insert_by]. destruct (key t <? key a) eqn:Hlt.
  - apply Z.ltb_lt in Hlt. cbn [List.filter].
    destruct (key t =? k) eqn:Htk.
    + apply Z.eqb_eq in Htk.
      assert (Hnil : List.filter (fun a => key a =? k) (a :: l) = []).
      { apply filter_above_head; [exact Hasc | lia]. }
      cbn [List.filter] in Hnil. rewrite Hnil. reflexivity.
    + rewrite app_nil_r. reflexivity.
  - cbn [List.filter]. rewrite IH by (destruct l; [exact I | apply Hasc]).
    destruct (key a =? k); reflexivity.
Qed.

Lemma sorted_by_filter {A : Type} (key : A -> Z) (k : Z) (l : list A) :
  List.filter (fun a => key a =? k) (sorted_by key l)
  = List.filter (fun a => key a =? k) l.
Proof.
  unfold sorted_by.
  assert (H : forall acc, ascending key acc ->
             List.filter (fun a => key a =? k)
               (fold_left (fun acc t => insert_by key t acc) l acc)
             = List.filter (fun a => key a =? k) acc
               ++ List.filter (fun a => key a =? k) l).
  { induction l as [| a l IH]; intros acc Hacc; cbn [fold_left List.filter].
    - rewrite app_nil_r. reflexivity.
    - rewrite IH by (apply insert_by_ascending, Hacc).
      rewrite insert_by_filter by exact Hacc.
      rewrite <- app_assoc. destruct (key a =? k); reflexivity. }
  apply (H [] I).
Qed.

(** X7. Sorting a row is stable: the tokens of a row that share an x stand
    in the order in which they were read. *)
Theorem rows_keep_reading_order_at_equal_x
  (ocr : ocr_data) (threshold : Z) (seg : list Token) (x : Z) :
  In seg (group_segments ocr threshold) ->
  In (row_of_segment seg) (group_tokens_by_line ocr threshold)
  /\ List.filter (fun tok => fst tok =? x) (row_of_segment seg)
     = List.filter (fun tok => fst tok =? x) (map drop_y seg).
Proof.
  intros Hseg. split.
  - rewrite group_tokens_by_line_segments. apply in_map. exact Hseg.
  - apply sorted_by_filter.
Qed.

Lemma rows_keep_reading_order_at_equal_x_witness :
  In (row_of_segment [(7, 0, "b"); (3, 0, "c"); (7, 1, "a")])
     (group_tokens_by_line
        {| ocr_left := [7; 3; 7]; ocr_top := [0; 0; 1]; ocr_text := ["b"; "c"; "a"] |} 12)
  /\ List.filter (fun tok => fst tok =? 7)
       (row_of_segment [(7, 0, "b"); (3, 0, "c"); (7, 1, "a")])
     = List.filter (fun tok => fst tok =? 7)
         (map drop_y [(7, 0, "b"); (3, 0, "c"); (7, 1, "a")]).
Proof.
  apply rows_keep_reading_order_at_equal_x.
  vm_compute. left. reflexivity.
Defined.

End GroupingMore.

(* ===================================================================== *)
(** ** The header locator: which row, which keys *)
(* ===================================================================== *)

Section HeaderMore.
Import Extractor Terms Further.

Lemma find_header_first (rs : list Row) :
  forall idx h row,
    find_header idx rs = Some (h, row) ->
    exists above below,
      rs = above ++ row :: below
      /\ h = idx + len above
      /\ Forall (fun r => is_header_text (merged_text r) = false) above
      /\ is_header_text (merged_text row) = true.
Proof.
  induction rs as [| r rs IH]; intros idx h row H; simpl in H; [discriminate |].
  destruct (is_header_text (merged_text r)) eqn:Hr.
  - injection H as <- <-. exists [], rs. repeat split; auto.
    unfold len. simpl. lia.
  - destruct (IH _ _ _ H) as (above & below & -> & -> & Habove & Hrow).
    exists (r :: above), below. repeat split; auto.
    unfold len. simpl length. lia.
Qed.

(** X8. The index returned by the header locator is that of the first row
    that satisfies the header predicate, and the boundaries are computed
    from that row alone. *)
Theorem header_is_the_first_match
  (rs : list Row) (idx : Z) (b : option (gmap string float)) :
  find_table_header rs = Returns (Some idx, b) ->
  exists above row below boundaries,
    rs = above ++ row :: below
    /\ idx = len above
    /\ Forall (fun r => is_header_text (merged_text r) = false) above
    /\ is_header_text (merged_text row) = true
    /\ header_boundaries row = Returns boundaries
    /\ b = Some boundaries.
Proof.
  unfold find_table_header. intros H.
  destruct (find_header 0 rs) as [[h row] |] eqn:Hfind; [| discriminate].
  destruct (header_boundaries row) as [boundaries | e] eqn:Hb; simpl in H; [| discriminate].
  injection H as <- <-.
  destruct (find_header_first rs 0 h row Hfind) as (above & below & Hrs & Hh & Ha & Hr).
  exists above, row, below, boundaries. repeat split; auto.
Qed.

Lemma header_is_the_first_match_witness :
  exists above row below boundaries,
    [[(10, "Invoice")]; Samples.header_row; [(40, "Widget"); (410, "10.00")]]
    = above ++ row :: below
    /\ 1 = len above
    /\ Forall (fun r => is_header_text (merged_text r) = false) above
    /\ is_header_text (merged_text row) = true
    /\ header_boundaries row = Returns boundaries
    /\ Some Samples.widget_boundaries = Some boundaries.
Proof.
  apply header_is_the_first_match. vm_compute. reflexivity.
Defined.

Lemma add_boundary_cases (xs : list Z) (i : nat) (key : string)
  (b b' : gmap string float) :
  add_boundary xs i key b = Returns b' ->
  ((S i < length xs)%nat /\ exists v, b' = <[key := v]> b)
  \/ ((length xs <= S i)%nat /\ b' = b).
Proof.
  unfold add_boundary, len. intros H.
  destruct (Z.of_nat i + 1 <? Z.of_nat (length xs)) eqn:Hlt.
  - apply Z.ltb_lt in Hlt.
    destruct (PyFloat.int_truediv _ 2) as [v | e]; simpl in H; [| discriminate].
    injection H as <-. left. split; [lia | exists v; reflexivity].
  - apply Z.ltb_ge in Hlt. injection H as <-. right. split; [lia | reflexivity].
Qed.

Lemma header_boundaries_no_rate_end (row : Row) (b : gmap string float) :
  header_boundaries row = Returns b ->
  (filled (header_positions row) < 4)%nat ->
  b !! "rate_end" = None.
Proof.
  unfold header_boundaries. fold (header_positions row). fold (header_xs row).
  assert (Hlen : length (header_xs row) = filled (header_positions row)).
  { unfold header_xs. rewrite length_sorted_by. reflexivity. }
  rewrite <- Hlen. clear Hlen. set (xs := header_xs row).
  intros H Hfew.
  destruct (add_boundary xs 0 "desc_end" ∅) as [b1 | e] eqn:H1; simpl in H; [| discriminate].
  destruct (add_boundary xs 1 "qty_end" b1) as [b2 | e] eqn:H2; simpl in H; [| discriminate].
  apply add_boundary_cases in H1, H2, H.
  destruct H as [[L3 _] | [_ ->]]; [lia |].
  destruct H1 as [[_ [v1 ->]] | [_ ->]]; destruct H2 as [[_ [v2 ->]] | [_ ->]];
    simplify_map_eq; reflexivity.
Qed.

(** X9. The keys of the boundaries are decided by the number of label
    slots found in the header row: desc_end is present from two slots on,
    qty_end from three, rate_end only with all four, and no other key is
    ever present. *)
Theorem boundary_keys_follow_the_slots (row : Row) (b : gmap string float) :
  header_boundaries row = Returns b ->
  (is_Some (b !! "desc_end") <-> (2 <= filled (header_positions row))%nat)
  /\ (is_Some (b !! "qty_end") <-> (3 <= filled (header_positions row))%nat)
  /\ (is_Some (b !! "rate_end") <-> (4 <= filled (header_positions row))%nat)
  /\ (forall key, is_Some (b !! key) ->
                  key = "desc_end" \/ key = "qty_end" \/ key = "rate_end").
Proof.
  unfold header_boundaries. fold (header_positions row). fold (header_xs row).
  assert (Hlen : length (header_xs row) = filled (header_positions row)).
  { unfold header_xs. rewrite length_sorted_by. reflexivity. }
  rewrite <- Hlen. clear Hlen. set (xs := header_xs row).
  intros H.
  destruct (add_boundary xs 0 "desc_end" ∅) as [b1 | e] eqn:H1; simpl in H; [| discriminate].
  destruct (add_boundary xs 1 "qty_end" b1) as [b2 | e] eqn:H2; simpl in H; [| discriminate].
  apply add_boundary_cases in H1, H2, H.
  destruct H1 as [[L1 [v1 ->]] | [L1 ->]];
    destruct H2 as [[L2 [v2 ->]] | [L2 ->]];
    destruct H as [[L3 [v3 ->]] | [L3 ->]]; try lia;
    (split; [| split; [| split]];
     [ split; [intros [v Hv]; simplify_map_eq; lia
              | intros Hn; try lia; simplify_map_eq; eauto ]
     | split; [intros [v Hv]; simplify_map_eq; lia
              | intros Hn; try lia; simplify_map_eq; eauto ]
     | split; [intros [v Hv]; simplify_map_eq; lia
              | intros Hn; try lia; simplify_map_eq; eauto ]
     | intros key [v Hv];
       destruct (decide (key = "desc_end")) as [-> | N1]; [auto |];
       destruct (decide (key = "qty_end")) as [-> | N2]; [auto |];
       destruct (decide (key = "rate_end")) as [-> | N3]; [auto |];
       simplify_map_eq ]).
Qed.

Lemma boundary_keys_follow_the_slots_witness :
  (is_Some (Samples.widget_boundaries !! "desc_end")
   <-> (2 <= filled (header_positions Samples.header_row))%nat)
  /\ (is_Some (Samples.widget_boundaries !! "qty_end")
      <-> (3 <= filled (header_positions Samples.header_row))%nat)
  /\ (is_Some (Samples.widget_boundaries !! "rate_end")
      <-> (4 <= filled (header_positions Samples.header_row))%nat)
  /\ (forall key, is_Some (Samples.widget_boundaries !! key) ->
                  key = "desc_end" \/ key = "qty_end" \/ key = "rate_end").
Proof.
  apply boundary_keys_follow_the_slots. vm_compute. reflexivity.
Defined.

Lemma lower_ch_idem (c : ascii) : PyStr.lower_ch (PyStr.lower_ch c) = PyStr.lower_ch c.
Proof. destruct c as [[] [] [] [] [] [] [] []]; reflexivity. Qed.

Lemma lower_idem (s : string) : PyStr.lower (PyStr.lower s) = PyStr.lower s.
Proof.
  induction s as [| c s IH]; simpl; [reflexivity |].
  rewrite lower_ch_idem, IH. reflexivity.
Qed.

Lemma lower_append (s1 s2 : string) :
  PyStr.lower (String.append s1 s2) = String.append (PyStr.lower s1) (PyStr.lower s2).
Proof.
  induction s1 as [| c s1 IH]; simpl; [reflexivity |].
  rewrite IH. reflexivity.
Qed.

Lemma lower_join (sep : string) (l : list string) :
  PyStr.lower (PyStr.join sep l) = PyStr.join (PyStr.lower sep) (map PyStr.lower l).
Proof.
  unfold PyStr.join. induction l as [| w l IH]; [reflexivity |].
  destruct l as [| w2 l]; [reflexivity |].
  change (String.concat sep (w :: w2 :: l))
    with (String.append w (String.append sep (String.concat sep (w2 :: l)))).
  change (String.concat (PyStr.lower sep) (map PyStr.lower (w :: w2 :: l)))
    with (String.append (PyStr.lower w)
            (String.append (PyStr.lower sep)
               (String.concat (PyStr.lower sep) (map PyStr.lower (w2 :: l))))).
  rewrite !lower_append, IH. reflexivity.
Qed.

Section SameLetters.
Variable g : string -> string.
Hypothesis g_keeps_letters : forall w, PyStr.lower (g w) = PyStr.lower w.

Lemma merged_text_map_words (row : Row) :
  merged_text (map_words g row) = merged_text row.
Proof.
  unfold merged_text. rewrite !lower_join. f_equal.
  unfold map_words. rewrite !map_map. apply map_ext.
  intros [x w]. simpl. apply g_keeps_letters.
Qed.

Lemma slot_of_map_words (w : string) : slot_of (g w) = slot_of w.
Proof. unfold slot_of. rewrite g_keeps_letters. reflexivity. Qed.

Lemma header_boundaries_map_words (row : Row) :
  header_boundaries (map_words g row) = header_boundaries row.
Proof.
  unfold header_boundaries.
  assert (H : forall positions,
             fold_left set_position (map_words g row) positions
             = fold_left set_position row positions).
  { induction row as [| [x w] row IH]; intros positions; [reflexivity |].
    cbn [map_words map fold_left fst snd]. fold (map_words g row).
    rewrite IH. f_equal. unfold set_position. rewrite slot_of_map_words. reflexivity. }
  rewrite H. reflexivity.
Qed.

Lemma find_header_map_words (rs : list Row) :
  forall idx,
    find_header idx (map (map_words g) rs)
    = match find_header idx rs with
      | Some (h, row) => Some (h, map_words g row)
      | None => None
      end.
Proof.
  induction rs as [| r rs IH]; intros idx; [reflexivity |].
  cbn [map find_header]. rewrite merged_text_map_words.
  destruct (is_header_text (merged_text r)); [reflexivity | apply IH].
Qed.

End SameLetters.

(** X10. The header locator looks at the words in lower case only:
    rewriting the words of the rows without changing their lower-case form
    (changing the case of letters) changes neither the index nor the
    boundaries. *)
Theorem header_location_ignores_case (g : string -> string) (rs : list Row) :
  (forall w, PyStr.lower (g w) = PyStr.lower w) ->
  find_table_header (map (map_words g) rs) = find_table_header rs.
Proof.
  intros Hg. unfold find_table_header. rewrite (find_header_map_words g Hg).
  destruct (find_header 0 rs) as [[h row] |]; [| reflexivity].
  rewrite (header_boundaries_map_words g Hg). reflexivity.
Qed.

Lemma header_location_ignores_case_witness :
  find_table_header
    (map (map_words PyStr.lower)
       [[(10, "INVOICE")]; [(10, "DESCRIPTION"); (200, "Qty"); (300, "RATE")]])
  = find_table_header
      [[(10, "INVOICE")]; [(10, "DESCRIPTION"); (200, "Qty"); (300, "RATE")]].
Proof.
  apply header_location_ignores_case. exact lower_idem.
Defined.

End HeaderMore.

(* ===================================================================== *)
(** ** Numeric coercion and the serial number *)
(* ===================================================================== *)

Section StringsMore.
Import Extractor Terms Further.

Lemma remove_commas_append (s1 s2 : string) :
  PyStr.remove_commas (String.append s1 s2)
  = String.append (PyStr.remove_commas s1) (PyStr.remove_commas s2).
Proof.
  induction s1 as [| c s1 IH]; simpl; [reflexivity |].
  destruct (PyStr.code c =? 44); rewrite IH; reflexivity.
Qed.

(** X11. Commas are dropped wherever they stand, not only between groups
    of three digits: a string and the same string with a comma inserted
    anywhere coerce to the same result. *)
Theorem commas_are_ignored_anywhere (s1 s2 : string) :
  as_number (String.append s1 (String.append "," s2))
  = as_number (String.append s1 s2).
Proof.
  unfold as_number. rewrite !remove_commas_append. reflexivity.
Qed.

Lemma chars_append (s1 s2 : string) :
  PyStr.chars (String.append s1 s2) = PyStr.chars s1 ++ PyStr.chars s2.
Proof.
  unfold PyStr.chars. induction s1 as [| c s1 IH]; simpl; [reflexivity |].
  rewrite IH. reflexivity.
Qed.

Lemma of_chars_chars (s : string) : PyStr.of_chars (PyStr.chars s) = s.
Proof. apply string_of_list_ascii_of_string. Qed.

Lemma chars_of_chars (l : list ascii) : PyStr.chars (PyStr.of_chars l) = l.
Proof. apply list_ascii_of_string_of_list_ascii. Qed.

(** The words that [split] returns are words. *)
Lemma split_aux_words (l : list ascii) :
  forall cur,
    forallb (fun c => negb (PyStr.isspace_ch c)) cur = true ->
    Forall is_word (PyStr.split_aux cur l).
Proof.
  assert (Hword : forall cur c,
             forallb (fun c => negb (PyStr.isspace_ch c)) (c :: cur) = true ->
             is_word (PyStr.of_chars (rev (c :: cur)))).
  { intros cur c H. unfold is_word. rewrite chars_of_chars. split.
    - simpl. destruct (rev cur); discriminate.
    - rewrite forallb_forall in H |- *. intros a Ha. apply H, in_rev, Ha. }
  induction l as [| c l IH]; intros cur Hcur; cbn [PyStr.split_aux].
  - destruct cur as [| a cur]; constructor; [apply Hword, Hcur | constructor].
  - destruct (PyStr.isspace_ch c) eqn:Hc.
    + destruct cur as [| a cur]; [apply IH; reflexivity |].
      constructor; [apply Hword, Hcur | apply IH; reflexivity].
    + apply IH. cbn [forallb]. rewrite Hc, Hcur. reflexivity.
Qed.

Lemma split_words (s : string) : Forall is_word (PyStr.split s).
Proof. apply split_aux_words. reflexivity. Qed.

(** Reading the characters of a word only grows the current run. *)
Lemma split_aux_word (w : list ascii) (rest : list ascii) :
  forallb (fun c => negb (PyStr.isspace_ch c)) w = true ->
  forall cur, PyStr.split_aux cur (w ++ rest) = PyStr.split_aux (rev w ++ cur) rest.
Proof.
  induction w as [| c w IH]; intros Hw cur; [reflexivity |].
  cbn [forallb] in Hw. apply andb_prop in Hw. destruct Hw as [Hc Hw].
  cbn [app PyStr.split_aux]. apply negb_true_iff in Hc. rewrite Hc.
  rewrite (IH Hw). cbn [rev]. rewrite <- app_assoc. reflexivity.
Qed.

Lemma split_join_words (ws : list string) :
  Forall is_word ws -> PyStr.split (PyStr.join " " ws) = ws.
Proof.
  unfold PyStr.split, PyStr.join.
  induction 1 as [| w ws [Hne Hw] Hws IH]; [reflexivity |].
  destruct ws as [| w2 ws].
  - cbn [String.concat].
    rewrite <- (app_nil_r (PyStr.chars w)), (split_aux_word _ [] Hw), app_nil_r.
    cbn [PyStr.split_aux].
    destruct (rev (PyStr.chars w)) eqn:Hrev.
    + apply (f_equal (@rev _)) in Hrev. rewrite rev_involutive in Hrev. contradiction.
    + rewrite <- Hrev, rev_involutive, of_chars_chars. reflexivity.
  - change (String.concat " " (w :: w2 :: ws))
      with (String.append w (String.append " " (String.concat " " (w2 :: ws)))).
    rewrite !chars_append, (split_aux_word _ _ Hw), app_nil_r.
    change (PyStr.chars " ") with [" "%char]. cbn [app PyStr.split_aux].
    change (PyStr.isspace_ch " ") with true. cbn iota.
    destruct (rev (PyStr.chars w)) eqn:Hrev.
    + apply (f_equal (@rev _)) in Hrev. rewrite rev_involutive in Hrev. contradiction.
    + rewrite <- Hrev, rev_involutive, of_chars_chars, IH. reflexivity.
Qed.

(** X12. [strip_serial] removes the first word of a description exactly
    when that word is all digits, and keeps the other words as they are:
    the words of the result are the words of the description without a
    leading number. *)
Theorem strip_serial_drops_a_leading_number (description : string) :
  PyStr.split (strip_serial description)
  = match PyStr.split description with
    | first :: rest => if PyStr.isdigit first then rest else first :: rest
    | [] => []
    end.
Proof.
  unfold strip_serial.
  pose proof (split_words description) as Hwords.
  destruct (PyStr.split description) as [| first rest] eqn:Hsplit; [exact Hsplit |].
  destruct (PyStr.isdigit first); [| exact Hsplit].
  apply split_join_words. inversion Hwords; assumption.
Qed.

End StringsMore.

(* ===================================================================== *)
(** ** The line-item extractor: skipped rows, order, bounds *)
(* ===================================================================== *)

Section ItemsMore.
Import Extractor Terms Further.

Lemma scan_rows_skips (b : gmap string float) (row : Row) (below : list Row) :
  PyStr.contains "category total" (merged_text row) = true ->
  forall (above : list Row) (items : list LineItem),
    scan_rows b (above ++ row :: below) items = scan_rows b (above ++ below) items.
Proof.
  intros Hcat. induction above as [| r above IH]; intros items; simpl.
  - rewrite Hcat. reflexivity.
  - destruct (PyStr.contains "category total" (merged_text r)); [apply IH |].
    destruct (PyStr.contains "printed" (merged_text r)); [reflexivity |].
    destruct (row_item b r) as [[it |] | e]; simpl; auto.
Qed.

(** X13. A row after the header whose text contains "category total" is
    passed over and the scan goes on: the items are those of the input
    without that row. *)
Theorem category_total_row_is_skipped
  (b : gmap string float) (above below : list Row) (row : Row) (h : Z) :
  0 <= h < len above ->
  PyStr.contains "category total" (merged_text row) = true ->
  extract_line_items (above ++ row :: below) (Some h) (Some b)
  = extract_line_items (above ++ below) (Some h) (Some b).
Proof.
  intros Hh Hcat. unfold extract_line_items.
  rewrite !slice_from_app by lia. apply scan_rows_skips, Hcat.
Qed.

Lemma category_total_row_is_skipped_witness :
  extract_line_items
    ([Samples.header_row]
       ++ [(10, "Category"); (70, "Total"); (410, "99.00")]
       :: [[(40, "Widget"); (210, "2"); (310, "5.00"); (410, "10.00")]])
    (Some 0) (Some Samples.widget_boundaries)
  = extract_line_items
      ([Samples.header_row]
         ++ [[(40, "Widget"); (210, "2"); (310, "5.00"); (410, "10.00")]])
      (Some 0) (Some Samples.widget_boundaries).
Proof.
  apply category_total_row_is_skipped.
  - vm_compute. split; [discriminate | reflexivity].
  - vm_compute. reflexivity.
Defined.

Lemma scan_rows_length (b : gmap string float) (rs : list Row) :
  forall items out,
    scan_rows b rs items = Returns out ->
    (length out <= length items + length rs)%nat.
Proof.
  induction rs as [| row rs IH]; intros items out H; simpl in H.
  - injection H as <-. simpl. lia.
  - destruct (PyStr.contains "category total" (merged_text row)).
    { apply IH in H. simpl. lia. }
    destruct (PyStr.contains "printed" (merged_text row)).
    { injection H as <-. simpl. lia. }
    destruct (row_item b row) as [[it |] | e]; simpl in H; [| | discriminate].
    + apply IH in H. rewrite length_app in H. simpl in *. lia.
    + apply IH in H. simpl. lia.
Qed.

Lemma row_item_is_named (b : gmap string float) (row : Row) (it : LineItem) :
  row_item b row = Returns (Some it) -> item_name it <> EmptyString.
Proof.
  unfold row_item. intros H.
  destruct (as_number _) as [quantity | e]; simpl in H; [| discriminate].
  destruct (as_number _) as [rate_val | e]; simpl in H; [| discriminate].
  destruct (first_number _) as [[amount |] | e]; simpl in H; try discriminate.
  destruct (strip_serial _) as [| c s] eqn:Hname; simpl in H; [discriminate |].
  injection H as <-. simpl. discriminate.
Qed.

Lemma length_slice_from {A : Type} (l : list A) (i : Z) :
  0 <= i -> len (slice_from l i) = Z.max 0 (len l - i).
Proof.
  intros Hi. unfold slice_from, len.
  destruct (i <? 0) eqn:Hneg; [apply Z.ltb_lt in Hneg; lia |].
  rewrite length_skipn. lia.
Qed.

(** X14. The extractor emits at most one item per row after the header,
    and every item it emits has a non-empty name. *)
Theorem items_are_named_and_bounded
  (b : gmap string float) (rs : list Row) (h : Z) (out : list LineItem) :
  0 <= h ->
  extract_line_items rs (Some h) (Some b) = Returns out ->
  len out <= Z.max 0 (len rs - (h + 1))
  /\ (forall it, In it out -> item_name it <> EmptyString).
Proof.
  intros Hh Hout. unfold extract_line_items in Hout. split.
  - rewrite <- length_slice_from by lia.
    apply scan_rows_length in Hout. unfold len. simpl in Hout. lia.
  - intros it Hin.
    destruct (scan_rows_items b _ [] out Hout it Hin) as [[] | (row & _ & Hit)].
    apply (row_item_is_named b row it Hit).
Qed.

Lemma items_are_named_and_bounded_witness :
  len [Samples.widget_item] <= Z.max 0 (len [Samples.header_row; zero_quantity_row;
          [(40, "Widget"); (210, "2"); (310, "5.00"); (410, "10.00")]] - (1 + 1))
  /\ (forall it, In it [Samples.widget_item] -> item_name it <> EmptyString).
Proof.
  apply (items_are_named_and_bounded Samples.widget_boundaries _ 1).
  - lia.
  - vm_compute. reflexivity.
Defined.

Lemma scan_rows_no_items (b : gmap string float) (rs : list Row) :
  Forall (fun row => row_item b row = Returns None) rs ->
  forall items, scan_rows b rs items = Returns items.
Proof.
  induction 1 as [| row rs Hrow _ IH]; intros items; simpl; [reflexivity |].
  destruct (PyStr.contains "category total" (merged_text row)); [apply IH |].
  destruct (PyStr.contains "printed" (merged_text row)); [reflexivity |].
  rewrite Hrow. simpl. apply IH.
Qed.

Lemma row_item_without_rate_end (b : gmap string float) (row : Row) :
  b !! "rate_end" = None ->
  Forall (fun tok => fst tok < 99999) row ->
  row_item b row = Returns None.
Proof.
  intros Hb Hrow. apply row_item_no_amount. unfold bucket_row.
  rewrite (fold_place_no_rate_end b row Hb Hrow). reflexivity.
Qed.

(** X15. Without a rate_end boundary the amount bucket stays empty, so the
    extractor emits nothing: on rows whose tokens all lie left of 99999 the
    result is the empty list. *)
Theorem no_rate_end_no_items
  (b : gmap string float) (rs : list Row) (h : Z) :
  b !! "rate_end" = None ->
  Forall (Forall (fun tok => fst tok < 99999)) rs ->
  extract_line_items rs (Some h) (Some b) = Returns [].
Proof.
  intros Hb Hrs. unfold extract_line_items. apply scan_rows_no_items.
  rewrite List.Forall_forall in Hrs |- *. intros row Hrow.
  apply row_item_without_rate_end; [exact Hb |].
  apply Hrs, (In_slice_from _ _ _ Hrow).
Qed.

Lemma no_rate_end_no_items_witness :
  extract_line_items
    [[(200, "Qty"); (300, "Rate"); (400, "Amount")];
     [(40, "Widget"); (210, "2"); (310, "5.00"); (410, "10.00")]]
    (Some 0)
    (Some (<["qty_end" := PyFloat.dyadic 350 0]>
             (<["desc_end" := PyFloat.dyadic 250 0]> ∅)))
  = Returns [].
Proof.
  apply no_rate_end_no_items.
  - vm_compute. reflexivity.
  - repeat constructor.
Defined.

Lemma slice_from_len {A : Type} (above below : list A) :
  slice_from (above ++ below) (len above) = below.
Proof.
  unfold slice_from, len.
  destruct (Z.of_nat (length above) <? 0) eqn:Hneg; [apply Z.ltb_lt in Hneg; lia |].
  rewrite Nat2Z.id, skipn_app, skipn_all, Nat.sub_diag. reflexivity.
Qed.

Lemma scan_rows_acc (b : gmap string float) (rs : list Row) :
  forall items out,
    scan_rows b rs [] = Returns out ->
    scan_rows b rs items = Returns (items ++ out).
Proof.
  induction rs as [| row rs IH]; intros items out H; simpl in *.
  - injection H as <-. rewrite app_nil_r. reflexivity.
  - destruct (PyStr.contains "category total" (merged_text row)); [apply IH, H |].
    destruct (PyStr.contains "printed" (merged_text row)).
    { injection H as <-. rewrite app_nil_r. reflexivity. }
    destruct (row_item b row) as [[it |] | e]; simpl in *; [| apply IH, H | discriminate].
    destruct (scan_rows_returns b rs []) as [tail Htail].
    rewrite (IH [it] tail Htail) in H. injection H as <-.
    rewrite (IH (items ++ [it]) tail Htail), <- app_assoc. reflexivity.
Qed.

Lemma scan_rows_app (b : gmap string float) (rs1 rs2 : list Row) :
  Forall (fun row => is_stop row = false) rs1 ->
  forall items,
    scan_rows b (rs1 ++ rs2) items
    = (let! mid := scan_rows b rs1 items in scan_rows b rs2 mid).
Proof.
  induction 1 as [| row rs1 Hrow _ IH]; intros items; simpl; [reflexivity |].
  unfold is_stop in Hrow.
  destruct (PyStr.contains "category total" (merged_text row)); [apply IH |].
  destruct (PyStr.contains "printed" (merged_text row)); [discriminate |].
  destruct (row_item b row) as [[it |] | e]; simpl; auto.
Qed.

(** X16. Items come out in row order, row block by row block: when no row
    of a first block stops the scan, the items of the block followed by a
    second block are the items of the first followed by the items of the
    second. *)
Theorem items_follow_the_row_order
  (b : gmap string float) (above rs1 rs2 : list Row) (h : Z)
  (out1 out2 : list LineItem) :
  len above = h + 1 ->
  Forall (fun row => is_stop row = false) rs1 ->
  extract_line_items (above ++ rs1) (Some h) (Some b) = Returns out1 ->
  extract_line_items (above ++ rs2) (Some h) (Some b) = Returns out2 ->
  extract_line_items (above ++ rs1 ++ rs2) (Some h) (Some b) = Returns (out1 ++ out2).
Proof.
  unfold extract_line_items. intros <- Hrs1. rewrite !slice_from_len.
  intros H1 H2. rewrite (scan_rows_app b rs1 rs2 Hrs1), H1. simpl.
  apply scan_rows_acc, H2.
Qed.

Lemma items_follow_the_row_order_witness :
  extract_line_items
    ([Samples.header_row]
       ++ [[(40, "Gadget"); (210, "1"); (310, "3.00"); (410, "3.00")]]
       ++ [[(40, "Widget"); (210, "2"); (310, "5.00"); (410, "10.00")]])
    (Some 0) (Some Samples.widget_boundaries)
  = Returns
      ([ {| item_name := "Gadget"; item_quantity := PyFloat.dyadic 1 0;
            item_rate := PyFloat.dyadic 3 0; item_amount := PyFloat.dyadic 3 0 |} ]
         ++ [Samples.widget_item]).
Proof.
  apply items_follow_the_row_order.
  - reflexivity.
  - repeat constructor.
  - vm_compute. reflexivity.
  - vm_compute. reflexivity.
Defined.

(** X17. A header row in which fewer than four label slots are found has no
    rate_end boundary, and then nothing is extracted: on item rows whose
    tokens lie left of 99999 the pipeline returns the result with no
    item. *)
Theorem fewer_than_four_labels_yield_nothing
  (above below : list Row) (row : Row) (b : gmap string float) :
  Forall (fun r => is_header_text (merged_text r) = false) above ->
  is_header_text (merged_text row) = true ->
  (filled (header_positions row) < 4)%nat ->
  header_boundaries row = Returns b ->
  Forall (Forall (fun tok => fst tok < 99999)) below ->
  bill_info_from_rows (above ++ row :: below) = Returns empty_result.
Proof.
  intros Habove Hrow Hfew Hb Hbelow.
  pose proof (header_boundaries_no_rate_end row b Hb Hfew) as Hrate.
  unfold bill_info_from_rows, find_table_header.
  rewrite (find_header_app above below row Habove Hrow), Hb. cbn [bind].
  unfold extract_line_items. rewrite Z.add_0_l, slice_from_header.
  rewrite scan_rows_no_items; [reflexivity |].
  rewrite List.Forall_forall in Hbelow |- *. intros r Hr.
  apply row_item_without_rate_end; [exact Hrate | apply Hbelow, Hr].
Qed.

Lemma fewer_than_four_labels_yield_nothing_witness :
  bill_info_from_rows
    ([[(10, "Invoice"); (90, "42")]]
       ++ [(10, "Item"); (200, "Qty"); (300, "Rate"); (400, "Amount")]
       :: [[(40, "Widget"); (210, "2"); (310, "5.00"); (410, "10.00")]])
  = Returns empty_result.
Proof.
  apply (fewer_than_four_labels_yield_nothing
           [[(10, "Invoice"); (90, "42")]]
           [[(40, "Widget"); (210, "2"); (310, "5.00"); (410, "10.00")]]
           [(10, "Item"); (200, "Qty"); (300, "Rate"); (400, "Amount")]
           (<["qty_end" := PyFloat.dyadic 350 0]>
              (<["desc_end" := PyFloat.dyadic 250 0]> ∅))).
  - repeat constructor.
  - vm_compute. reflexivity.
  - vm_compute. lia.
  - vm_compute. reflexivity.
  - repeat constructor.
Defined.

End ItemsMore.

(* ===================================================================== *)
(** ** The pipeline and the endpoint *)
(* ===================================================================== *)

Section PipelineMore.
Import Extractor Segments Terms Further.

(** X18. A failure of either collaborator is what the endpoint reports: the
    response has [is_success] false, no data, and the text of that very
    exception after "Processing failed: ". *)
Theorem collaborator_failure_is_reported
  (C : Collaborators) (payload : App.BillRequest) (e : exn) :
  load_image_from_url C (App.document payload) = Raises e
  \/ (exists img, load_image_from_url C (App.document payload) = Returns img
                  /\ text_with_boxes C img = Raises e) ->
  App.extract_bill_data C payload
  = Returns {| App.is_success := false;
               App.data := None;
               App.error := Some (String.append "Processing failed: " (exn_str e)) |}.
Proof.
  unfold App.extract_bill_data, extract_bill_info_from_url.
  intros [H | (img & H & Hocr)]; rewrite H; simpl; [reflexivity |].
  rewrite Hocr. reflexivity.
Qed.

Lemma collaborator_failure_is_reported_witness :
  App.extract_bill_data (Samples.failing_download (mk_exn "Timeout" "timed out"))
    {| App.document := "http://bill" |}
  = Returns {| App.is_success := false;
               App.data := None;
               App.error := Some "Processing failed: timed out" |}.
Proof.
  apply (collaborator_failure_is_reported
           (Samples.failing_download (mk_exn "Timeout" "timed out"))
           {| App.document := "http://bill" |} (mk_exn "Timeout" "timed out")).
  left. reflexivity.
Defined.

(** The x of a token of a row is an entry of the "left" column. *)
Lemma In_rows_left (ocr : ocr_data) (threshold : Z) (row : Row) (tok : Z * string) :
  In row (group_tokens_by_line ocr threshold) -> In tok row ->
  In (fst tok) (ocr_left ocr).
Proof.
  rewrite group_tokens_by_line_segments. intros Hrow Htok.
  apply in_map_iff in Hrow. destruct Hrow as (seg & <- & Hseg).
  unfold row_of_segment in Htok.
  apply (Permutation_in _ (sorted_by_perm fst (map drop_y seg))) in Htok.
  apply in_map_iff in Htok. destruct Htok as (t & <- & Ht).
  destruct (group_segments_read ocr threshold) as (Hcat & _).
  assert (Hk : In t (kept (zip3 (ocr_left ocr) (ocr_top ocr) (ocr_text ocr)))).
  { rewrite <- Hcat. apply in_concat. exists seg. split; assumption. }
  destruct (In_kept _ _ Hk) as (token & Hin & _).
  apply In_zip3_left in Hin. exact Hin.
Qed.

(** X19. When both collaborators return and the x-coordinates of the OCR
    output are 64-bit values, the endpoint reports success: no step of the
    pipeline raises. *)
Theorem small_coordinates_give_success
  (C : Collaborators) (payload : App.BillRequest) (img : Image C) (ocr : ocr_data) :
  load_image_from_url C (App.document payload) = Returns img ->
  text_with_boxes C img = Returns ocr ->
  Forall small (ocr_left ocr) ->
  exists env,
    extract_bill_info_from_url C (App.document payload) = Returns env
    /\ App.extract_bill_data C payload
       = Returns {| App.is_success := true; App.data := Some env; App.error := None |}.
Proof.
  intros Hload Hocr Hsmall.
  unfold App.extract_bill_data, extract_bill_info_from_url, bill_info_from_ocr.
  rewrite Hload. simpl. rewrite Hocr. simpl.
  destruct (bill_info_from_rows_returns (group_tokens_by_line ocr default_threshold))
    as [env ->].
  - rewrite List.Forall_forall. intros row Hrow.
    rewrite List.Forall_forall. intros tok Htok.
    rewrite List.Forall_forall in Hsmall.
    apply Hsmall, (In_rows_left ocr default_threshold row tok Hrow Htok).
  - exists env. split; reflexivity.
Qed.

Lemma small_coordinates_give_success_witness :
  exists env,
    extract_bill_info_from_url (Samples.fixed_ocr Samples.widget_ocr) "http://bill"
    = Returns env
    /\ App.extract_bill_data (Samples.fixed_ocr Samples.widget_ocr)
         {| App.document := "http://bill" |}
       = Returns {| App.is_success := true; App.data := Some env; App.error := None |}.
Proof.
  apply (small_coordinates_give_success (Samples.fixed_ocr Samples.widget_ocr)
           {| App.document := "http://bill" |} tt Samples.widget_ocr).
  - reflexivity.
  - reflexivity.
  - repeat constructor; vm_compute; reflexivity.
Defined.

Lemma kept_blank (xs ys : list Z) (ts : list string) :
  Forall (fun t => PyStr.strip t = EmptyString) ts -> kept (zip3 xs ys ts) = [].
Proof.
  intros Hts. revert xs ys.
  induction Hts as [| t ts Ht _ IH]; intros [| x xs] [| y ys]; try reflexivity.
  cbn [zip3 kept]. rewrite Ht. apply IH.
Qed.

(** X20. A page on which the OCR engine reads no text, or only blank
    text, is no error: the pipeline returns the result with no item, count
    0 and reconciled amount 0. *)
Theorem blank_page_gives_empty_result
  (C : Collaborators) (image_url : string) (img : Image C) (ocr : ocr_data) :
  load_image_from_url C image_url = Returns img ->
  text_with_boxes C img = Returns ocr ->
  Forall (fun t => PyStr.strip t = EmptyString) (ocr_text ocr) ->
  extract_bill_info_from_url C image_url = Returns empty_result.
Proof.
  intros Hload Hocr Hblank.
  unfold extract_bill_info_from_url, bill_info_from_ocr.
  rewrite Hload. simpl. rewrite Hocr. simpl.
  assert (Hrows : group_tokens_by_line ocr default_threshold = []).
  { rewrite group_tokens_by_line_segments.
    destruct (group_segments_read ocr default_threshold) as (Hcat & Hne & _).
    rewrite (kept_blank _ _ _ Hblank) in Hcat.
    destruct (group_segments ocr default_threshold) as [| seg segs]; [reflexivity |].
    inversion Hne as [| ? ? Hseg _]; subst.
    destruct seg; [contradiction | discriminate Hcat]. }
  rewrite Hrows. reflexivity.
Qed.

Lemma blank_page_gives_empty_result_witness :
  extract_bill_info_from_url
    (Samples.fixed_ocr
       {| ocr_left := [0; 5]; ocr_top := [0; 9]; ocr_text := [EmptyString; "  "] |})
    "http://blank"
  = Returns empty_result.
Proof.
  apply (blank_page_gives_empty_result
           (Samples.fixed_ocr
              {| ocr_left := [0; 5]; ocr_top := [0; 9];
                 ocr_text := [EmptyString; "  "] |})
           "http://blank" tt
           {| ocr_left := [0; 5]; ocr_top := [0; 9]; ocr_text := [EmptyString; "  "] |}).
  - reflexivity.
  - reflexivity.
  - repeat constructor.
Defined.

Lemma fold_number_add_float (l : list float) (f : float) :
  exists g, fold_left number_add l (PFloat f) = PFloat g.
Proof.
  revert f. induction l as [| a l IH]; intros f; simpl; [eexists; reflexivity |].
  apply IH.
Qed.

(** X21. The reconciled amount is the integer 0 exactly when no item was
    emitted; as soon as there is an item it is a float. *)
Theorem reconciled_amount_is_int_only_when_empty
  (C : Collaborators) (image_url : string) (env : Envelope) :
  extract_bill_info_from_url C image_url = Returns env ->
  exists items,
    pagewise_line_items (data env) = [ {| page_no := "1"; bill_items := items |} ]
    /\ match items with
       | [] => reconciled_amount (data env) = PInt 0
       | _ :: _ => exists f, reconciled_amount (data env) = PFloat f
       end.
Proof.
  unfold extract_bill_info_from_url, bill_info_from_ocr. intros H.
  destruct (load_image_from_url C image_url) as [img | e]; simpl in H; [| discriminate].
  destruct (text_with_boxes C img) as [ocr | e]; simpl in H; [| discriminate].
  destruct (bill_info_from_rows_fields _ _ H) as (items & _ & Hp & _ & Hs).
  exists items. split; [exact Hp |]. rewrite Hs.
  destruct items as [| it items]; [reflexivity |].
  unfold py_sum. cbn [map fold_left number_add]. apply fold_number_add_float.
Qed.

Lemma reconciled_amount_is_int_only_when_empty_witness :
  exists items,
    pagewise_line_items (data Samples.widget_result)
    = [ {| page_no := "1"; bill_items := items |} ]
    /\ match items with
       | [] => reconciled_amount (data Samples.widget_result) = PInt 0
       | _ :: _ => exists f, reconciled_amount (data Samples.widget_result) = PFloat f
       end.
Proof.
  apply (reconciled_amount_is_int_only_when_empty
           (Samples.fixed_ocr Samples.widget_ocr) "http://bill").
  vm_compute. reflexivity.
Defined.

Lemma add_nan_l (f : float) : PyFloat.add S754_nan f = S754_nan.
Proof. reflexivity. Qed.

Lemma add_nan_r (f : float) : PyFloat.add f S754_nan = S754_nan.
Proof. destruct f; reflexivity. Qed.

Lemma fold_number_add_nan (l : list float) :
  fold_left number_add l (PFloat S754_nan) = PFloat S754_nan.
Proof.
  induction l as [| a l IH]; simpl; [reflexivity | exact IH].
Qed.

Lemma py_sum_nan (l : list float) : In S754_nan l -> py_sum l = PFloat S754_nan.
Proof.
  unfold py_sum. generalize (PInt 0).
  induction l as [| a l IH]; intros start Hin; [contradiction |].
  cbn [fold_left]. destruct Hin as [-> | Hin].
  - replace (number_add start S754_nan) with (PFloat S754_nan).
    + apply fold_number_add_nan.
    + destruct start; simpl; rewrite add_nan_r; reflexivity.
  - apply IH, Hin.
Qed.

(** X22. Numeric coercion accepts the word "nan", and one item whose amount
    is not-a-number makes the reconciled amount not-a-number, whatever the
    other amounts are. *)
Theorem nan_amount_spoils_the_total (rs : list Row) (env : Envelope) (it : LineItem) :
  bill_info_from_rows rs = Returns env ->
  In it (concat (map bill_items (pagewise_line_items (data env)))) ->
  item_amount it = S754_nan ->
  reconciled_amount (data env) = PFloat S754_nan.
Proof.
  intros H Hin Hnan.
  destruct (bill_info_from_rows_fields _ _ H) as (items & _ & Hp & _ & Hs).
  rewrite Hp in Hin. simpl in Hin. rewrite app_nil_r in Hin.
  rewrite Hs. apply py_sum_nan. rewrite <- Hnan. apply in_map, Hin.
Qed.

Lemma nan_amount_spoils_the_total_witness :
  as_number "NaN" = Returns (Some S754_nan)
  /\ reconciled_amount
       (data {| is_success := true;
                data := {| pagewise_line_items :=
                             [ {| page_no := "1";
                                  bill_items :=
                                    [Samples.widget_item;
                                     {| item_name := "Gadget";
                                        item_quantity := PyFloat.dyadic 1 0;
                                        item_rate := S754_nan;
                                        item_amount := S754_nan |}] |} ];
                           total_item_count := 2;
                           reconciled_amount := PFloat S754_nan |} |})
     = PFloat S754_nan.
Proof.
  split; [vm_compute; reflexivity |].
  apply (nan_amount_spoils_the_total
           [Samples.header_row;
            [(40, "Widget"); (210, "2"); (310, "5.00"); (410, "10.00")];
            [(40, "Gadget"); (410, "NaN")]]
           _
           {| item_name := "Gadget";
              item_quantity := PyFloat.dyadic 1 0;
              item_rate := S754_nan;
              item_amount := S754_nan |}).
  - vm_compute. reflexivity.
  - simpl. right. left. reflexivity.
  - reflexivity.
Defined.

End PipelineMore.

(* ===================================================================== *)
(** ** Boundaries are midpoints *)
(* ===================================================================== *)

Section BoundariesMore.
Import Extractor Terms Further.

Lemma half_is_exact (s : bool) (p : positive) :
  Zpos p < 2 ^ 53 ->
  SFdiv PyFloat.prec PyFloat.emax (S754_finite s p 0) (S754_finite false 2 0)
  = S754_finite s (Z.to_pos (Zpos p * 2 ^ (52 - Z.log2 (Zpos p))))
      (Z.log2 (Zpos p) - 53).
Proof.
  intros Hp.
  assert (HL : 0 <= Z.log2 (Zpos p) < 53).
  { split; [apply Z.log2_nonneg |]. apply Z.log2_lt_pow2; lia. }
  set (L := Z.log2 (Zpos p)) in *.
  set (k := 52 - L).
  assert (Hk : 0 <= k) by (unfold k; lia).
  assert (Hpos : 0 < Zpos p * 2 ^ k) by (apply Z.mul_pos_pos; [lia | apply Z.pow_pos_nonneg; lia]).
  set (p' := Z.to_pos (Zpos p * 2 ^ k)).
  assert (Hp' : Zpos p' = Zpos p * 2 ^ k) by (unfold p'; rewrite Z2Pos.id; lia).
  assert (Hlog : Z.log2 (Zpos p') = 52).
  { rewrite Hp', Z.log2_mul_pow2 by lia. fold L. unfold k. lia. }
  unfold SFdiv, SFdiv_core_binary.
  rewrite (Zdigits2_log2 p). fold L. change (Zdigits2 2) with 2.
  unfold fexp, emin, PyFloat.prec, PyFloat.emax.
  replace (IntDef.Z.min (IntDef.Z.max (L + 1 + 0 - (2 + 0) - 53) (3 - 1024 - 53)) (0 - 0))
    with (L - 54) by (change IntDef.Z.min with Z.min; change IntDef.Z.max with Z.max; lia).
  replace (0 - 0 - (L - 54)) with (k + 2) by (unfold k; lia).
  destruct (k + 2) as [| ks | ks] eqn:Hks; try lia.
  change (IntDef.Z.shiftl (Z.pos p) (Z.pos ks)) with (Z.shiftl (Z.pos p) (Z.pos ks)).
  rewrite Z.shiftl_mul_pow2 by lia. rewrite <- Hks.
  replace (Z.pos p * 2 ^ (k + 2)) with (Z.pos p'~0~0)
    by (rewrite Z.pow_add_r by lia; lia).
  change IntDef.Z.div_eucl with Z.div_eucl.
  pose proof (Z.div_eucl_eq (Z.pos p'~0~0) 2 ltac:(lia)) as Hdiv.
  pose proof (Z.mod_pos_bound (Z.pos p'~0~0) 2 ltac:(lia)) as Hmod.
  unfold Z.modulo in Hmod.
  destruct (Z.div_eucl (Z.pos p'~0~0) 2) as [q r].
  assert (Hr : r = 0) by lia. assert (Hq : q = Z.pos p'~0) by lia. subst q r.
  change (new_location 2 0) with loc_Exact.
  unfold binary_round_aux, shr_fexp.
  rewrite (Zdigits2_log2 (p'~0)).
  replace (Z.log2 (Z.pos p'~0)) with 53
    by (change (Z.pos p'~0) with (2 * Z.pos p'); rewrite Z.log2_double by lia; lia).
  unfold fexp, emin.
  replace (IntDef.Z.max (53 + 1 + (L - 54) - 53) (3 - 1024 - 53) - (L - 54)) with 1
    by (change IntDef.Z.max with Z.max; lia).
  cbn [shr shr_record_of_loc SpecFloat.iter_pos shr_1 orb shr_m loc_of_shr_record round_nearest_even].
  rewrite (Zdigits2_log2 p'), Hlog.
  replace (IntDef.Z.max (52 + 1 + (L - 54 + 1) - 53) (3 - 1024 - 53) - (L - 54 + 1)) with 0
    by (change IntDef.Z.max with Z.max; lia).
  cbn [shr shr_m].
  replace (L - 54 + 1) with (L - 53) by lia.
  destruct (L - 53 <=? 1024 - 53) eqn:Hle; [| apply Z.leb_gt in Hle; lia].
  rewrite xorb_false_r. reflexivity.
Qed.

Lemma int_lt_scaled (x : Z) (s : bool) (p : positive) :
  Zpos p < 2 ^ 53 ->
  PyFloat.int_lt x
    (S754_finite s (Z.to_pos (Zpos p * 2 ^ (52 - Z.log2 (Zpos p))))
       (Z.log2 (Zpos p) - 53))
  = (2 * x <? cond_Zopp s (Zpos p)).
Proof.
  intros Hp.
  assert (HL : 0 <= Z.log2 (Zpos p) < 53).
  { split; [apply Z.log2_nonneg |]. apply Z.log2_lt_pow2; lia. }
  set (L := Z.log2 (Zpos p)) in *.
  assert (Hpow : 0 < 2 ^ (52 - L)) by (apply Z.pow_pos_nonneg; lia).
  unfold PyFloat.int_lt.
  destruct (0 <=? L - 53) eqn:Hexp; [apply Z.leb_le in Hexp; lia |].
  rewrite Z2Pos.id by (apply Z.mul_pos_pos; lia).
  replace (- (L - 53)) with (1 + (52 - L)) by lia.
  rewrite Z.pow_add_r by lia. change (2 ^ 1) with 2.
  set (w := 2 ^ (52 - L)) in *.
  assert (Hv : cond_Zopp s (Zpos p * w) = cond_Zopp s (Zpos p) * w).
  { destruct s; simpl; lia. }
  rewrite Hv.
  destruct (2 * x <? cond_Zopp s (Zpos p)) eqn:E.
  - apply Z.ltb_lt in E. apply Z.ltb_lt. nia.
  - apply Z.ltb_ge in E. apply Z.ltb_ge. nia.
Qed.

Lemma int_lt_half (x n : Z) (f : PyFloat.float) :
  Z.abs n < 2 ^ 53 ->
  PyFloat.int_truediv n 2 = Returns f ->
  PyFloat.int_lt x f = (2 * x <? n).
Proof.
  intros Hn. unfold PyFloat.int_truediv.
  destruct (2 =? 0) eqn:H2; [discriminate |].
  destruct (PyFloat.overflow_limit * Z.abs 2 <=? Z.abs n); [discriminate |].
  intros H. injection H as <-.
  destruct n as [| p | p]; cbn [PyFloat.exact_int].
  - cbn. destruct (x <? 0) eqn:E1, (2 * x <? 0) eqn:E2; try reflexivity;
      rewrite ?Z.ltb_lt, ?Z.ltb_ge in *; lia.
  - rewrite half_is_exact by lia. apply int_lt_scaled. lia.
  - rewrite half_is_exact by lia. apply (int_lt_scaled x true p). lia.
Qed.

Lemma set_position_all (P : Z -> Prop) (positions : Positions) (tok : Z * string) :
  P (fst tok) ->
  Forall P (present (positions_values positions)) ->
  Forall P (present (positions_values (set_position positions tok))).
Proof.
  destruct tok as [x word]. unfold set_position. simpl. intros Hx.
  destruct (slot_of word) as [[] |]; destruct positions as [[d |] [q |] [r |] [a |]];
    cbn; intros H; repeat match goal with
                          | H : Forall _ (_ :: _) |- _ => inversion H; clear H; subst
                          end; repeat constructor; assumption.
Qed.

Lemma header_xs_all (P : Z -> Prop) (row : Row) :
  Forall (fun tok => P (fst tok)) row -> Forall P (header_xs row).
Proof.
  intros Hrow. unfold header_xs, header_positions. apply Forall_sorted_by.
  assert (H : forall positions,
             Forall P (present (positions_values positions)) ->
             Forall P (present (positions_values (fold_left set_position row positions)))).
  { induction Hrow as [| tok row Htok _ IH]; intros positions Hp; simpl; [exact Hp |].
    apply IH, set_position_all; assumption. }
  apply H. constructor.
Qed.

Lemma nth_all (P : Z -> Prop) (xs : list Z) (i : nat) :
  P 0 -> Forall P xs -> P (nth i xs 0).
Proof.
  intros H0 H. revert i. induction H as [| x xs Hx _ IH]; intros [| i]; simpl; auto.
Qed.

Lemma add_boundary_value (xs : list Z) (i : nat) (key : string)
  (b b' : gmap string float) :
  (S i < length xs)%nat ->
  add_boundary xs i key b = Returns b' ->
  exists v, PyFloat.int_truediv (nth i xs 0 + nth (S i) xs 0) 2 = Returns v
            /\ b' = <[key := v]> b.
Proof.
  unfold add_boundary, len. intros Hi H.
  destruct (Z.of_nat i + 1 <? Z.of_nat (length xs)) eqn:Hlt;
    [| apply Z.ltb_ge in Hlt; lia].
  destruct (PyFloat.int_truediv _ 2) as [v | e]; simpl in H; [| discriminate].
  injection H as <-. exists v. split; reflexivity.
Qed.

Lemma before_midpoint (b : gmap string float) (key : string) (v : float) (n x : Z) :
  Z.abs n < 2 ^ 53 ->
  PyFloat.int_truediv n 2 = Returns v ->
  b !! key = Some v ->
  before b key x = (2 * x <? n).
Proof.
  intros Hn Hv Hb. unfold before. rewrite Hb. apply (int_lt_half x n v Hn Hv).
Qed.

Lemma ascending_nth (xs : list Z) :
  ascending id xs ->
  forall i, (S i < length xs)%nat -> nth i xs 0 <= nth (S i) xs 0.
Proof.
  induction xs as [| a xs IH]; intros Hasc i Hi; [simpl in Hi; lia |].
  destruct xs as [| c xs]; [simpl in Hi; lia |].
  destruct Hasc as [Hac Hrest]. destruct i as [| i]; [exact Hac |].
  apply (IH Hrest i). simpl in *. lia.
Qed.

(** X23. For header positions below 2^52 in magnitude the boundaries are
    the exact midpoints of neighbouring label positions: a token at x is
    left of a boundary exactly when 2x is less than the sum of the two
    positions. The positions being sorted, the three thresholds never
    decrease. *)
Theorem boundaries_are_exact_midpoints (row : Row) (b : gmap string float) (x : Z) :
  Forall (fun tok => Z.abs (fst tok) < 2 ^ 52) row ->
  header_boundaries row = Returns b ->
  ((2 <= length (header_xs row))%nat ->
   before b "desc_end" x = (2 * x <? nth 0 (header_xs row) 0 + nth 1 (header_xs row) 0))
  /\ ((3 <= length (header_xs row))%nat ->
      before b "qty_end" x = (2 * x <? nth 1 (header_xs row) 0 + nth 2 (header_xs row) 0)
      /\ nth 0 (header_xs row) 0 + nth 1 (header_xs row) 0
         <= nth 1 (header_xs row) 0 + nth 2 (header_xs row) 0)
  /\ ((4 <= length (header_xs row))%nat ->
      before b "rate_end" x = (2 * x <? nth 2 (header_xs row) 0 + nth 3 (header_xs row) 0)
      /\ nth 1 (header_xs row) 0 + nth 2 (header_xs row) 0
         <= nth 2 (header_xs row) 0 + nth 3 (header_xs row) 0).
Proof.
  intros Hrow. unfold header_boundaries.
  fold (header_positions row). fold (header_xs row).
  pose proof (header_xs_all (fun z => Z.abs z < 2 ^ 52) row Hrow) as Hxs.
  assert (Hasc : ascending id (header_xs row)) by apply sorted_by_ascending.
  set (xs := header_xs row) in *.
  assert (Hnth : forall i, Z.abs (nth i xs 0) < 2 ^ 52)
    by (intros i; apply (nth_all (fun z => Z.abs z < 2 ^ 52)); [reflexivity | exact Hxs]).
  assert (Hsum : forall i j, Z.abs (nth i xs 0 + nth j xs 0) < 2 ^ 53).
  { intros i j. pose proof (Hnth i). pose proof (Hnth j).
    change (2 ^ 53) with (2 ^ 52 + 2 ^ 52). lia. }
  pose proof (ascending_nth xs Hasc) as Hord.
  intros H.
  destruct (add_boundary xs 0 "desc_end" ∅) as [b1 | e] eqn:H1; simpl in H; [| discriminate].
  destruct (add_boundary xs 1 "qty_end" b1) as [b2 | e] eqn:H2; simpl in H; [| discriminate].
  split; [| split].
  - intros Hlen.
    destruct (add_boundary_value xs 0 _ _ _ ltac:(lia) H1) as (v1 & Hv1 & ->).
    apply add_boundary_cases in H2, H.
    apply (before_midpoint b "desc_end" v1); [apply Hsum | exact Hv1 |].
    destruct H2 as [[_ [v2 ->]] | [_ ->]]; destruct H as [[_ [v3 ->]] | [_ ->]];
      simplify_map_eq; reflexivity.
  - intros Hlen.
    destruct (add_boundary_value xs 1 _ _ _ ltac:(lia) H2) as (v2 & Hv2 & ->).
    apply add_boundary_cases in H. split.
    + apply (before_midpoint b "qty_end" v2); [apply Hsum | exact Hv2 |].
      destruct H as [[_ [v3 ->]] | [_ ->]]; simplify_map_eq; reflexivity.
    + pose proof (Hord 0%nat ltac:(lia)). pose proof (Hord 1%nat ltac:(lia)). lia.
  - intros Hlen.
    destruct (add_boundary_value xs 2 _ _ _ ltac:(lia) H) as (v3 & Hv3 & ->). split.
    + apply (before_midpoint _ "rate_end" v3); [apply Hsum | exact Hv3 |].
      simplify_map_eq. reflexivity.
    + pose proof (Hord 1%nat ltac:(lia)). pose proof (Hord 2%nat ltac:(lia)). lia.
Qed.

Lemma boundaries_are_exact_midpoints_witness :
  ((2 <= length (header_xs Samples.header_row))%nat ->
   before Samples.widget_boundaries "desc_end" 105
   = (2 * 105 <? nth 0 (header_xs Samples.header_row) 0
                  + nth 1 (header_xs Samples.header_row) 0))
  /\ ((3 <= length (header_xs Samples.header_row))%nat ->
      before Samples.widget_boundaries "qty_end" 105
      = (2 * 105 <? nth 1 (header_xs Samples.header_row) 0
                     + nth 2 (header_xs Samples.header_row) 0)
      /\ nth 0 (header_xs Samples.header_row) 0 + nth 1 (header_xs Samples.header_row) 0
         <= nth 1 (header_xs Samples.header_row) 0 + nth 2 (header_xs Samples.header_row) 0)
  /\ ((4 <= length (header_xs Samples.header_row))%nat ->
      before Samples.widget_boundaries "rate_end" 105
      = (2 * 105 <? nth 2 (header_xs Samples.header_row) 0
                     + nth 3 (header_xs Samples.header_row) 0)
      /\ nth 1 (header_xs Samples.header_row) 0 + nth 2 (header_xs Samples.header_row) 0
         <= nth 2 (header_xs Samples.header_row) 0 + nth 3 (header_xs Samples.header_row) 0).
Proof.
  apply boundaries_are_exact_midpoints.
  - repeat constructor; vm_compute; reflexivity.
  - vm_compute. reflexivity.
Defined.

End BoundariesMore.
